(** * CP2B biogas siting scripts: a shallow embedding and its properties

    The development follows the Earth Engine scripts of the repository:

    - [Corrected]   : Google_Earth_Engine_CORRECTED.js (residue coefficients
                      and the biomass calculation inside a buffer);
    - [Extraction]  : GEE_Data_Extraction_Only.js (raw distances to the
                      infrastructure layers);
    - [Master]      : src/streamlit/utils/Google_Earth_Engine_Suffering.js
                      (weighted infrastructure registry, restriction and MCDA
                      steps);
    - [Methodology] : the MCDA methodology document (distance penalty
                      function, infrastructure formula, completeness tables).

    The modules [CorrectedRun], [ExtractionRun] and [MasterRun] hold the
    chunked export loops of the three scripts and the functions only those
    loops call; [Client] holds the client-side operations they share.

    Numbers: the scripts compute on [ee.Number] and JavaScript numbers.  They
    are read here over the rationals [Q], so every product, sum and quotient
    is exact; equalities between computed values are stated with [==]. *)

From Stdlib Require Import QArith Qabs Qminmax Lqa ZArith List String.
From stdpp Require Import base gmap strings pretty.

Local Open Scope Q_scope.
Local Open Scope string_scope.

(** ** Google_Earth_Engine_CORRECTED.js *)

Module Corrected.

(** One entry of [var crops].  The pasture entry carries the manure fields and
    no [productivity_ton_ha]; every other entry carries [productivity_ton_ha]
    only, hence the optional fields (a property that is not there reads as
    [undefined], which [ee.Number.multiply] refuses).  [color] and [source] are
    only read by the map layers and the printed report. *)
Record crop : Type := {
  class : Z;
  name : string;
  area_sp_ha : Q;
  livestock_density_heads_ha : option Q;
  manure_production_kg_head_day : option Q;
  annual_manure_ton_ha : option Q;
  productivity_ton_ha : option Q;
  biogas_factor_nm3_ton : Q;
  biogas_m3_ha_year : Q;
  methane_content : Q;
  seasonal_factor : Q
}.

Definition pasture : crop := {|
  class := 15;
  name := "Pastagem";
  area_sp_ha := 3842653;
  livestock_density_heads_ha := Some 2.5;
  manure_production_kg_head_day := Some 10;
  annual_manure_ton_ha := Some (2.5 * 10 * 365 / 1000);
  productivity_ton_ha := None;
  biogas_factor_nm3_ton := 200;
  biogas_m3_ha_year := 1825;
  methane_content := 0.60;
  seasonal_factor := 1.0
|}.

Definition sugarcane : crop := {|
  class := 20;
  name := "Cana-de-açúcar";
  area_sp_ha := 5812461;
  livestock_density_heads_ha := None;
  manure_production_kg_head_day := None;
  annual_manure_ton_ha := None;
  productivity_ton_ha := Some 70.23;
  biogas_factor_nm3_ton := 94;
  biogas_m3_ha_year := 6602;
  methane_content := 0.55;
  seasonal_factor := 0.75
|}.

Definition soy : crop := {|
  class := 39;
  name := "Soja";
  area_sp_ha := 1508984;
  livestock_density_heads_ha := None;
  manure_production_kg_head_day := None;
  annual_manure_ton_ha := None;
  productivity_ton_ha := Some 2.84;
  biogas_factor_nm3_ton := 215;
  biogas_m3_ha_year := 611;
  methane_content := 0.50;
  seasonal_factor := 0.4
|}.

Definition corn : crop := {|
  class := 39;
  name := "Milho (Rotação Soja)";
  area_sp_ha := 275159;
  livestock_density_heads_ha := None;
  manure_production_kg_head_day := None;
  annual_manure_ton_ha := None;
  productivity_ton_ha := Some 7.85;
  biogas_factor_nm3_ton := 225;
  biogas_m3_ha_year := 1766;
  methane_content := 0.52;
  seasonal_factor := 0.5
|}.

Definition rice : crop := {|
  class := 40;
  name := "Arroz";
  area_sp_ha := 31667;
  livestock_density_heads_ha := None;
  manure_production_kg_head_day := None;
  annual_manure_ton_ha := None;
  productivity_ton_ha := Some 7.11;
  biogas_factor_nm3_ton := 220;
  biogas_m3_ha_year := 1564;
  methane_content := 0.55;
  seasonal_factor := 0.8
|}.

Definition coffee : crop := {|
  class := 46;
  name := "Café";
  area_sp_ha := 316067;
  livestock_density_heads_ha := None;
  manure_production_kg_head_day := None;
  annual_manure_ton_ha := None;
  productivity_ton_ha := Some 10.43;
  biogas_factor_nm3_ton := 310;
  biogas_m3_ha_year := 3233;
  methane_content := 0.62;
  seasonal_factor := 0.4
|}.

Definition citrus : crop := {|
  class := 47;
  name := "Citros";
  area_sp_ha := 112826;
  livestock_density_heads_ha := None;
  manure_production_kg_head_day := None;
  annual_manure_ton_ha := None;
  productivity_ton_ha := Some 99.00;
  biogas_factor_nm3_ton := 20.90;
  biogas_m3_ha_year := 2069;
  methane_content := 0.58;
  seasonal_factor := 0.6
|}.

(** [var crops], in the order [Object.keys] walks it (insertion order). *)
Definition crops : list (string * crop) :=
  [ ("pasture", pasture); ("sugarcane", sugarcane); ("soy", soy);
    ("corn", corn); ("rice", rice); ("coffee", coffee); ("citrus", citrus) ].

(** The three accumulators of [calculateBiomassInBuffer_CORRECTED]: the
    [biomassResults] object and the two running totals. *)
Record accumulators : Type := {
  biomassResults : gmap string Q;
  totalBiomassM3 : Q;
  totalMethaneM3 : Q
}.

Section Biomass.

(** Hectares of a MapBiomas class inside the buffer: what
    [mapbiomas.eq(crop.class)] times the pixel area, summed over the buffered
    geometry and divided by 10000, returns.  The raster work is Earth
    Engine's; the script only consumes the number. *)
Variable area_of_class : Z -> Q.

Variable bufferSuffix : string.

(** Lines 170-182: seasonal and methane potential, the four stores common to
    both branches and the two totals. *)
Definition store_potentials (cropKey : string) (crop0 : crop) (areaHa : Q)
    (biogas_potential_m3 : Q) (results : gmap string Q) (acc : accumulators)
    : accumulators :=
  let seasonal_potential := biogas_potential_m3 * seasonal_factor crop0 in
  let methane_potential := seasonal_potential * methane_content crop0 in
  let results := <[ (cropKey +:+ "_ha") +:+ bufferSuffix := areaHa ]> results in
  let results :=
    <[ (cropKey +:+ "_biogas_m3") +:+ bufferSuffix := biogas_potential_m3 ]> results in
  let results :=
    <[ (cropKey +:+ "_seasonal_m3") +:+ bufferSuffix := seasonal_potential ]> results in
  let results :=
    <[ (cropKey +:+ "_methane_m3") +:+ bufferSuffix := methane_potential ]> results in
  {| biomassResults := results;
     totalBiomassM3 := totalBiomassM3 acc + seasonal_potential;
     totalMethaneM3 := totalMethaneM3 acc + methane_potential |}.

(** The body of the [forEach] callback (lines 136-183) for one key. *)
Definition crop_iteration (acc : accumulators) (entry : string * crop)
    : option accumulators :=
  let '(cropKey, crop0) := entry in
  let areaHa := area_of_class (class crop0) in
  if String.eqb cropKey "pasture" then
    match livestock_density_heads_ha crop0, annual_manure_ton_ha crop0 with
    | Some density, Some manure =>
        let livestockHeads := areaHa * density in
        let annualManureTon := areaHa * manure in
        let biogas_potential_m3 := annualManureTon * biogas_factor_nm3_ton crop0 in
        let results :=
          <[ (cropKey +:+ "_livestock_heads") +:+ bufferSuffix := livestockHeads ]>
            (biomassResults acc) in
        let results :=
          <[ (cropKey +:+ "_manure_ton") +:+ bufferSuffix := annualManureTon ]> results in
        Some (store_potentials cropKey crop0 areaHa biogas_potential_m3 results acc)
    | _, _ => None
    end
  else
    match productivity_ton_ha crop0 with
    | Some productivity =>
        let annualProduction := areaHa * productivity in
        let biogas_potential_m3 := annualProduction * biogas_factor_nm3_ton crop0 in
        let results :=
          <[ (cropKey +:+ "_production_ton") +:+ bufferSuffix := annualProduction ]>
            (biomassResults acc) in
        Some (store_potentials cropKey crop0 areaHa biogas_potential_m3 results acc)
    | None => None
    end.

(** [Object.keys(crops).forEach(...)]. *)
Fixpoint for_each_crop (entries : list (string * crop)) (acc : accumulators)
    : option accumulators :=
  match entries with
  | [] => Some acc
  | entry :: rest =>
      match crop_iteration acc entry with
      | Some acc' => for_each_crop rest acc'
      | None => None
      end
  end.

(** Lines 185-190: the totals and the score are added to the object, which
    is returned. *)
Definition add_totals (acc : accumulators) : gmap string Q :=
  let results :=
    <[ "total_biomass_potential" +:+ bufferSuffix := totalBiomassM3 acc ]>
      (biomassResults acc) in
  let results :=
    <[ "total_methane_potential" +:+ bufferSuffix := totalMethaneM3 acc ]> results in
  <[ "biomass_score" +:+ bufferSuffix := totalMethaneM3 acc / 1000 ]> results.

Definition biomass_in_buffer (registry : list (string * crop))
    : option (gmap string Q) :=
  match
    for_each_crop registry
      {| biomassResults := ∅; totalBiomassM3 := 0; totalMethaneM3 := 0 |}
  with
  | Some acc => Some (add_totals acc)
  | None => None
  end.

(** [calculateBiomassInBuffer_CORRECTED(polygon, buffered, bufferSuffix)]:
    [polygon] is not read, and [buffered] only through [area_of_class]. *)
Definition calculateBiomassInBuffer_CORRECTED : option (gmap string Q) :=
  biomass_in_buffer crops.

End Biomass.

End Corrected.

(** ** GEE_Data_Extraction_Only.js *)

Module Extraction.

(** One entry of [var infrastructure]: the asset behind [collection] and the
    display name. *)
Record layer : Type := {
  collection : string;
  name : string
}.

Definition infrastructure : list (string * layer) :=
  [ ("subestacoes",
      {| collection := "projects/prova-de-conceito-cp2b/assets/SE_EXISTENTE";
         name := "Subestações Elétricas" |});
    ("linhas_transmissao",
      {| collection := "projects/prova-de-conceito-cp2b/assets/LT_EXISTENTE";
         name := "Linhas de Transmissão" |});
    ("rodovias_federais",
      {| collection := "projects/prova-de-conceito-cp2b/assets/rodovia-federal";
         name := "Rodovias Federais" |});
    ("rodovias_estaduais",
      {| collection := "projects/prova-de-conceito-cp2b/assets/rodovia-estadual";
         name := "Rodovias Estaduais" |});
    ("gasodutos",
      {| collection := "projects/prova-de-conceito-cp2b/assets/gasoduto-transporte";
         name := "Gasodutos de Transporte" |});
    ("gasoduto_distribuicao",
      {| collection := "projects/prova-de-conceito-cp2b/assets/gasoduto-distribuicao";
         name := "Gasodutos de Distribuição" |});
    ("aerodromos",
      {| collection := "projects/prova-de-conceito-cp2b/assets/Aerodromos_publicos";
         name := "Aeródromos Públicos" |}) ].

(** What the [try] block meets for one layer: either an exception before the
    assignment, or Earth Engine's two answers, the size of the filtered
    collection and the minimum of [distance(1)] at the centroid, in metres. *)
Inductive layer_query : Type :=
| Threw
| Answered (count : N) (distance : Q).

(** The value stored under ['dist_' + infraKey + '_km'] (lines 121-141). *)
Definition recorded_distance (outcome : layer_query) : Q :=
  match outcome with
  | Answered count distance =>
      let minDistance := if (0 <? count)%N then distance else 999999 in
      minDistance / 1000
  | Threw => -1
  end.

Section Distances.

(** The queries of one polygon's centroid, by layer key. *)
Variable query : string -> layer_query.

Definition distance_iteration (distances : gmap string Q)
    (entry : string * layer) : gmap string Q :=
  let infraKey := fst entry in
  <[ ("dist_" +:+ infraKey) +:+ "_km" := recorded_distance (query infraKey) ]>
    distances.

Definition distances_over (registry : list (string * layer)) : gmap string Q :=
  fold_left distance_iteration registry ∅.

(** [calculateInfrastructureDistances(polygon)]. *)
Definition calculateInfrastructureDistances : gmap string Q :=
  distances_over infrastructure.

(** Line 193: the distances are computed in the 10 km pass only; the other
    passes set an empty object. *)
Definition infraResults (distanceKey : string) : gmap string Q :=
  if String.eqb distanceKey "10km" then calculateInfrastructureDistances else ∅.

End Distances.

End Extraction.

(** ** src/streamlit/utils/Google_Earth_Engine_Suffering.js *)

Module Master.

Record layer : Type := {
  collection : string;
  weight : Q;
  name : string
}.

Definition infrastructure : list (string * layer) :=
  [ ("subestacoes",
      {| collection := "projects/prova-de-conceito-cp2b/assets/SE_EXISTENTE";
         weight := 0.20; name := "Subestações Elétricas" |});
    ("linhas_transmissao",
      {| collection := "projects/prova-de-conceito-cp2b/assets/LT_EXISTENTE";
         weight := 0.15; name := "Linhas de Transmissão" |});
    ("rodovias_federais",
      {| collection := "projects/prova-de-conceito-cp2b/assets/rodovia-federal";
         weight := 0.25; name := "Rodovias Federais" |});
    ("rodovias_estaduais",
      {| collection := "projects/prova-de-conceito-cp2b/assets/rodovia-estadual";
         weight := 0.20; name := "Rodovias Estaduais" |});
    ("outros_trechos",
      {| collection := "projects/prova-de-conceito-cp2b/assets/outros-trechos";
         weight := 0.10; name := "Outros Trechos Rodoviários" |});
    ("gasodutos",
      {| collection := "projects/prova-de-conceito-cp2b/assets/gasoduto-transporte";
         weight := 0.05; name := "Gasodutos de Transporte" |});
    ("gasoduto_distribuicao",
      {| collection := "projects/prova-de-conceito-cp2b/assets/gasoduto-distribuicao";
         weight := 0.08; name := "Gasodutos de Distribuição" |});
    ("aerodromos",
      {| collection := "projects/prova-de-conceito-cp2b/assets/Aerodromos_publicos";
         weight := 0.05; name := "Aeródromos Públicos" |}) ].

(** One entry of [var restrictions]; the [asset] lines are commented out in
    the script, so no entry has one. *)
Record restriction : Type := {
  restriction_level : Q;
  restriction_name : string
}.

Definition restrictions : list (string * restriction) :=
  [ ("ucs_protecao_integral",
      {| restriction_level := 10; restriction_name := "UCs Proteção Integral" |});
    ("ucs_uso_sustentavel",
      {| restriction_level := 7; restriction_name := "UCs Uso Sustentável" |});
    ("terras_indigenas",
      {| restriction_level := 10; restriction_name := "Terras Indígenas" |});
    ("quilombolas",
      {| restriction_level := 8; restriction_name := "Territórios Quilombolas" |});
    ("assentamentos",
      {| restriction_level := 5; restriction_name := "Assentamentos Rurais" |});
    ("perimetros_urbanos",
      {| restriction_level := 9; restriction_name := "Perímetros Urbanos" |});
    ("exclusao_aeroportuaria",
      {| restriction_level := 10;
         restriction_name := "Áreas de Exclusão Aeroportuária" |}) ].

(** A property of an Earth Engine feature. *)
Inductive value : Type :=
| Number (q : Q)
| Text (s : string).

(** A feature, as far as these functions see it: its property table.  The
    geometry is carried along unchanged by [set]. *)
Abbreviation feature := (gmap string value).

(** [feature.set(properties)]: the given properties overwrite. *)
Definition set (f : feature) (properties : feature) : feature :=
  properties ∪ f.

(** [calculateRestrictionScores(polygons)] (lines 219-244).  The loop over
    [restrictions] is inside a comment; what runs is the placeholder. *)
Definition calculateRestrictionScores (polygons : list feature) : list feature :=
  map (fun polygon =>
         let restrictionScores : feature :=
           <[ "total_restriction_score" := Number 0 ]> ∅ in
         set polygon restrictionScores)
      polygons.

(** [var weights] of [calculateMCDAScores]. *)
Record mcda_weights : Type := {
  biomass_potential : Q;
  infrastructure_weight : Q;
  restrictions_weight : Q
}.

Definition weights : mcda_weights := {|
  biomass_potential := 0.35;
  infrastructure_weight := 0.49;
  restrictions_weight := 0.16
|}.

(** Lines 262-264, the expression bound to [final_mcda_score]. *)
Definition final_mcda_score (biomass_score infrastructure_score restriction_score : Q)
    : Q :=
  (biomass_score * biomass_potential weights) +
  (infrastructure_score * infrastructure_weight weights) +
  (restriction_score * restrictions_weight weights).

(** [calculateMCDAScores(feature)] (lines 249-272): the three scores are the
    literal 0 of the script. *)
Definition calculateMCDAScores (f : feature) : feature :=
  let biomass_score := 0 in
  let infrastructure_score := 0 in
  let restriction_score := 0 in
  set f
    (<[ "biomass_score" := Number biomass_score ]>
     (<[ "infrastructure_score" := Number infrastructure_score ]>
      (<[ "restriction_score" := Number restriction_score ]>
       (<[ "mcda_final_score" :=
             Number (final_mcda_score biomass_score infrastructure_score
                       restriction_score) ]> ∅)))).

End Master.

(** ** The MCDA methodology document *)

Module Methodology.

(** [calculate_distance_score(distance_km, max_distance=50)], the linear
    penalty function of the section on distance penalties.  The cutoff below
    which the score is maximal is the literal 1 (km) of the first test.  The
    quotient is only reached when 1 < distance_km < max_distance. *)
Definition calculate_distance_score (distance_km max_distance : Q) : Q :=
  if Qle_bool distance_km 1 then 100
  else if Qle_bool max_distance distance_km then 0
  else Qmax 0 (100 - (distance_km / max_distance) * 100).

(** The default of the second argument. *)
Definition default_max_distance : Q := 50.

(** The literature-based infrastructure weights of the document, in percent. *)
Definition infrastructure_components : list (string * Q) :=
  [ ("federal_highways", 25); ("electrical_substations", 20);
    ("state_highways", 20); ("transmission_lines", 15);
    ("gas_pipelines", 10); ("gas_distribution", 5);
    ("other_infrastructure", 5) ].

(** One entry of [data_completeness_framework]. *)
Record completeness_entry : Type := {
  required_fields : list string;
  confidence_modifier : Q
}.

Definition biomass_data : completeness_entry := {|
  required_fields :=
    [ "agricultural_area_by_crop"; "livestock_populations";
      "industrial_production_data"; "urban_population_density" ];
  confidence_modifier := 0.7
|}.

Definition infrastructure_data : completeness_entry := {|
  required_fields :=
    [ "distance_to_substations"; "road_network_access";
      "transmission_line_proximity"; "gas_pipeline_access" ];
  confidence_modifier := 0.8
|}.

Definition restriction_data : completeness_entry := {|
  required_fields :=
    [ "conservation_units_buffer"; "indigenous_territories_buffer";
      "urban_area_restrictions"; "environmental_constraints" ];
  confidence_modifier := 0.6
|}.

End Methodology.

(** ** Sums over registries *)

Definition Qsum (l : list Q) : Q := fold_right Qplus 0 l.



(** ** The scoring rules as the specification words them *)

Module Spec.

(** Biomass normalisation (section 4.1): min-max scaling against the largest
    total methane potential of the units scored in the same run, floored at
    0. *)
Definition population_maximum (totals : list Q) : Q := fold_right Qmax 0 totals.

Definition minmax_biomass_score (totals : list Q) (total : Q) : Q :=
  Qmax 0 (100 * (total / population_maximum totals)).

(** Restriction pillar (section 4.3): one overlap record per category. *)
Record overlap : Type := {
  present : bool;
  severity : Q;
  importance : Q
}.

(** Importance is 1 unless configured otherwise. *)
Definition default_importance : Q := 1.

Definition penalty (o : overlap) : Q :=
  if present o then severity o * importance o else 0.

Definition cumulative_penalty (overlaps : list (string * overlap)) : Q :=
  Qsum (map (fun entry => penalty (snd entry)) overlaps).

Definition restriction_score (overlaps : list (string * overlap)) : Q :=
  Qmax 0 (100 - cumulative_penalty overlaps).

(** Weight sets (section 4.4): the acceptance test of [create_profile], with
    the default tolerance. *)
Definition tolerance : Q := 1e-3.

Definition sums_to_one (ws : list Q) : bool :=
  Qle_bool (Qabs (Qsum ws - 1)) tolerance.

Definition non_negative (ws : list Q) : bool := forallb (Qle_bool 0) ws.

Definition acceptable (ws : list Q) : bool := sums_to_one ws && non_negative ws.

End Spec.

(** ** DataCompletenessTracker (specification, section 4.5)

    No script has a counterpart of this component; only the tables of
    required fields exist, in the methodology document. *)

Module DataCompletenessTracker.

Definition populated_count (required : list string) (manifest : gset string) : nat :=
  length (filter (fun field => field ∈ manifest) required).

(** Modelled from the spec: the per-pillar confidence, which no source file
    computes: the number of required fields that the completeness manifest
    lists as populated over the number of required fields declared. *)
Definition pillar_confidence (required : list string) (manifest : gset string) : Q :=
  inject_Z (Z.of_nat (populated_count required manifest)) /
  inject_Z (Z.of_nat (length required)).

(** Modelled from the spec: the overall confidence reported to the caller,
    which no source file computes: the minimum across the three pillar
    confidences. *)
Definition overall_confidence (biomass infrastructure restriction : Q) : Q :=
  Qmin biomass (Qmin infrastructure restriction).

Definition biomass_confidence (manifest : gset string) : Q :=
  pillar_confidence (Methodology.required_fields Methodology.biomass_data) manifest.

Definition infrastructure_confidence (manifest : gset string) : Q :=
  pillar_confidence (Methodology.required_fields Methodology.infrastructure_data)
    manifest.

Definition restriction_confidence (manifest : gset string) : Q :=
  pillar_confidence (Methodology.required_fields Methodology.restriction_data)
    manifest.

(** Modelled from the spec: the confidence carried by a composite result,
    absent from the sources like the two definitions it combines. *)
Definition reported_confidence (manifest : gset string) : Q :=
  overall_confidence (biomass_confidence manifest)
    (infrastructure_confidence manifest) (restriction_confidence manifest).

(** The alternative the specification rules out. *)
Definition average_confidence (biomass infrastructure restriction : Q) : Q :=
  (biomass + infrastructure + restriction) / 3.

(** A manifest with half of the biomass fields and every other field. *)
Definition half_biomass_manifest : gset string :=
  list_to_set
    ([ "agricultural_area_by_crop"; "livestock_populations" ]
     ++ Methodology.required_fields Methodology.infrastructure_data
     ++ Methodology.required_fields Methodology.restriction_data).

End DataCompletenessTracker.

(** ** WeightProfileManager (specification, section 4.4)

    No script builds a weight profile from given weight sets: the master
    script holds its three pillar weights as the literals of
    [calculateMCDAScores] and never reads a sub-weight. *)

Module WeightProfileManager.

Inductive error : Type :=
| InvalidWeightError.

Record WeightProfile : Type := {
  profile_name : string;
  top_level_weights : list Q;
  infra_subweights : list Q
}.

(** Modelled from the spec: [create_profile], which no source file has: it
    fails with [InvalidWeightError] when either weight set does not sum to 1.0
    within the tolerance or holds a negative value, and otherwise returns the
    profile with both weight sets as they were given. *)
Definition create_profile (top_level infra : list Q) (name : string)
    : error + WeightProfile :=
  if Spec.acceptable top_level && Spec.acceptable infra
  then inr {| profile_name := name;
              top_level_weights := top_level;
              infra_subweights := infra |}
  else inl InvalidWeightError.

End WeightProfileManager.

(** ** Readings used in the statements *)

(** The cutoff of [calculate_distance_score] below which the score is
    maximal: the literal of its first test. *)
Definition min_threshold : Q := 1.

(** Tonnage per hectare of a residue class: manure for the pasture entry, the
    harvest for the others, as [crop_iteration] picks them. *)
Definition residue_yield (cropKey : string) (c : Corrected.crop) : option Q :=
  if String.eqb cropKey "pasture" then Corrected.annual_manure_ton_ha c
  else Corrected.productivity_ton_ha c.

(** Area times yield times biogas factor times seasonal factor. *)
Definition class_seasonal_potential (area_of_class : Z -> Q)
    (entry : string * Corrected.crop) : Q :=
  match residue_yield (fst entry) (snd entry) with
  | Some p =>
      area_of_class (Corrected.class (snd entry)) * p
        * Corrected.biogas_factor_nm3_ton (snd entry)
        * Corrected.seasonal_factor (snd entry)
  | None => 0
  end.

(** The same, times the methane fraction. *)
Definition class_methane_potential (area_of_class : Z -> Q)
    (entry : string * Corrected.crop) : Q :=
  match residue_yield (fst entry) (snd entry) with
  | Some p =>
      area_of_class (Corrected.class (snd entry)) * p
        * Corrected.biogas_factor_nm3_ton (snd entry)
        * Corrected.seasonal_factor (snd entry)
        * Corrected.methane_content (snd entry)
  | None => 0
  end.

(** The entries of a registry that do not map to a given land-use class. *)
Definition other_than_class (code : Z) (registry : list (string * Corrected.crop))
    : list (string * Corrected.crop) :=
  List.filter (fun entry => negb (Corrected.class (snd entry) =? code)%Z) registry.

(** A buffer holding 100 ha of class 20 (sugarcane) and nothing else. *)
Definition cane_only (code : Z) : Q := if (code =? 20)%Z then 100 else 0.

(** The weight sets of the master script. *)
Definition pillar_weights : list Q :=
  [ Master.biomass_potential Master.weights;
    Master.infrastructure_weight Master.weights;
    Master.restrictions_weight Master.weights ].

Definition infrastructure_subweights : list Q :=
  map (fun entry => Master.weight (snd entry)) Master.infrastructure.

(** The overlap mapping of a unit against the registry of the master script,
    given the keys of the categories it overlaps; importance is the default. *)
Definition overlaps_of (touched : list string) : list (string * Spec.overlap) :=
  map (fun entry =>
         (fst entry,
          {| Spec.present := existsb (String.eqb (fst entry)) touched;
             Spec.severity := Master.restriction_level (snd entry);
             Spec.importance := Spec.default_importance |}))
      Master.restrictions.

(** A query in which the substation layer throws and every other layer finds
    one feature 2.5 km away. *)
Definition substations_fail (infraKey : string) : Extraction.layer_query :=
  if String.eqb infraKey "subestacoes" then Extraction.Threw
  else Extraction.Answered 1 2500.



(** The weights of the methodology document, as fractions of 1. *)
Definition documented_subweights : list Q :=
  map (fun component => snd component / 100) Methodology.infrastructure_components.

(** ** Client-side operations shared by the three scripts *)

Module Client.

(** [list.slice(start, end)] on an [ee.List], for the bounds the scripts
    pass (0 <= start <= end): the elements from [start] on, up to [end]
    excluded; an end beyond the size is truncated to the size. *)
Definition slice {A : Type} (start stop : nat) (l : list A) : list A :=
  firstn (stop - start) (skipn start l).

(** The decimal text JavaScript gives a loop index in a concatenation. *)
Definition decimal (i : nat) : string := pretty i.

(** [(i < 10 ? '0' + i : i)] inside a string concatenation. *)
Definition two_digits (i : nat) : string :=
  if (i <? 10)%nat then "0" +:+ decimal i else decimal i.

(** [String(i).padStart(2, '0')]. *)
Definition padStart2 (i : nat) : string :=
  String.concat "" (repeat "0" (2 - String.length (decimal i))) +:+ decimal i.

(** How [ee.Algorithms.If] reads a condition that is not a boolean: null, the
    number 0 and the empty string are false, any other number or string is
    true. *)
Definition truthy (condition : option Master.value) : bool :=
  match condition with
  | None => false
  | Some (Master.Number q) => negb (Qeq_bool q 0)
  | Some (Master.Text s) => negb (String.eqb s "")
  end.

(** [ee.Algorithms.If(polygon.get(key), polygon.get(key), fallback)]. *)
Definition get_or (polygon : Master.feature) (key : string)
    (fallback : Master.value) : Master.value :=
  match polygon !! key with
  | Some v => if truthy (Some v) then v else fallback
  | None => fallback
  end.

(** The arguments of one [Export.table.toDrive] call. *)
Record export : Type := {
  collection : list Master.feature;
  description : string;
  fileFormat : string;
  folder : string
}.

(** A computed object of numbers, as properties for [feature.set]. *)
Definition numbers (properties : gmap string Q) : Master.feature :=
  Master.Number <$> properties.

End Client.

(** ** Google_Earth_Engine_CORRECTED.js, phase 4 *)

Module CorrectedRun.

(** [var bufferDistances], in insertion order; metres. *)
Definition bufferDistances : list (string * Q) :=
  [ ("10km", 10000); ("30km", 30000); ("50km", 50000) ].

Definition chunkSize : nat := 500.

Section Run.

(** [sicar_polygons.toList(totalFeatures)]. *)
Variable featureList : list Master.feature.

(** Hectares of a MapBiomas class inside [polygon.buffer(bufferDistance)]. *)
Variable area : Master.feature -> Q -> Z -> Q.

(** The callback of [chunk.map] (lines 229-234). *)
Definition score_polygon (bufferDistance : Q) (bufferSuffix : string)
    (polygon : Master.feature) : option Master.feature :=
  match
    Corrected.calculateBiomassInBuffer_CORRECTED (area polygon bufferDistance)
      bufferSuffix
  with
  | Some biomassResults => Some (Master.set polygon (Client.numbers biomassResults))
  | None => None
  end.

(** One turn of the [for] loop (lines 223-245): the chunk, its scored
    features and the export that is queued. *)
Definition chunk_export (distanceKey : string) (bufferDistance : Q) (i : nat)
    : option Client.export :=
  let bufferSuffix := "_" +:+ distanceKey in
  let start := (i * chunkSize)%nat in
  let chunk := Client.slice start (start + chunkSize) featureList in
  match mapM (score_polygon bufferDistance bufferSuffix) chunk with
  | Some chunkResult =>
      Some {| Client.collection := chunkResult;
              Client.description :=
                (("CP2B_" +:+ distanceKey) +:+ "_CORRECTED_Chunk_")
                  +:+ Client.two_digits i;
              Client.fileFormat := "CSV";
              Client.folder := "CP2B_Results_CORRECTED" |}
  | None => None
  end.

(** The body of the [forEach] over the scenarios: five chunks. *)
Definition scenario_exports (scenario : string * Q) : option (list Client.export) :=
  mapM (chunk_export (fst scenario) (snd scenario)) (seq 0 5).

(** All exports queued by the script, in order. *)
Definition exports : option (list Client.export) :=
  match mapM scenario_exports bufferDistances with
  | Some queued => Some (concat queued)
  | None => None
  end.

End Run.

End CorrectedRun.

(** ** GEE_Data_Extraction_Only.js, phases 2, 3 and 5 *)

Module ExtractionRun.

Record land_use : Type := {
  class : Z;
  name : string
}.

(** [var landUseClasses], in insertion order. *)
Definition landUseClasses : list (string * land_use) :=
  [ ("pasture", {| class := 15; name := "Pastagem" |});
    ("sugarcane", {| class := 20; name := "Cana-de-açúcar" |});
    ("soy", {| class := 39; name := "Soja" |});
    ("rice", {| class := 40; name := "Arroz" |});
    ("coffee", {| class := 46; name := "Café" |});
    ("citrus", {| class := 47; name := "Citros" |});
    ("other_perennial", {| class := 48; name := "Outras Perenes" |});
    ("other_temp", {| class := 41; name := "Outras Temporárias" |}) ].

Section Areas.

(** Hectares of a MapBiomas class inside the buffer (the reduced pixel area
    divided by 10000). *)
Variable area_of_class : Z -> Q.

(** [buffered.area()], in square metres. *)
Variable buffered_area : Q.

Variable bufferSuffix : string.

Definition land_use_iteration (results : gmap string Q)
    (entry : string * land_use) : gmap string Q :=
  let landUseKey := fst entry in
  let areaHa := area_of_class (class (snd entry)) in
  <[ (landUseKey +:+ "_ha") +:+ bufferSuffix := areaHa ]> results.

Definition land_use_over (registry : list (string * land_use)) : gmap string Q :=
  fold_left land_use_iteration registry ∅.

(** [extractLandUseAreas(polygon, buffered, bufferSuffix)]. *)
Definition extractLandUseAreas : gmap string Q :=
  let results := land_use_over landUseClasses in
  let totalBufferArea := buffered_area / 10000 in
  <[ "buffer_total_ha" +:+ bufferSuffix := totalBufferArea ]> results.

End Areas.

(** [var bufferDistances]; metres. *)
Definition bufferDistances : list (string * Q) :=
  [ ("10km", 10000); ("30km", 30000); ("50km", 50000) ].

Definition chunkSize : nat := 250.

Section Run.

Variable featureList : list Master.feature.

(** Hectares of a class inside [polygon.buffer(bufferDistance)], the area of
    that buffer in square metres, and the layer queries at the polygon's
    centroid. *)
Variable area : Master.feature -> Q -> Z -> Q.
Variable buffer_area : Master.feature -> Q -> Q.
Variable query : Master.feature -> string -> Extraction.layer_query.

(** The callback of [chunk.map] (lines 185-198). *)
Definition extract_polygon (distanceKey : string) (bufferDistance : Q)
    (polygon : Master.feature) : Master.feature :=
  let bufferSuffix := "_" +:+ distanceKey in
  let landUseResults :=
    extractLandUseAreas (area polygon bufferDistance)
      (buffer_area polygon bufferDistance) bufferSuffix in
  let infraResults := Extraction.infraResults (query polygon) distanceKey in
  Master.set (Master.set polygon (Client.numbers landUseResults))
    (Client.numbers infraResults).

(** One turn of the [for] loop (lines 179-209). *)
Definition chunk_export (distanceKey : string) (bufferDistance : Q) (i : nat)
    : Client.export :=
  let start := (i * chunkSize)%nat in
  let chunk := Client.slice start (start + chunkSize) featureList in
  {| Client.collection := map (extract_polygon distanceKey bufferDistance) chunk;
     Client.description :=
       (("CP2B_RAW_DATA_" +:+ distanceKey) +:+ "_Chunk_") +:+ Client.padStart2 i;
     Client.fileFormat := "CSV";
     Client.folder := "CP2B_Raw_Data" |}.

Definition scenario_exports (scenario : string * Q) : list Client.export :=
  map (chunk_export (fst scenario) (snd scenario)) (seq 0 10).

Definition exports : list Client.export :=
  concat (map scenario_exports bufferDistances).

End Run.

End ExtractionRun.

(** ** Google_Earth_Engine_Suffering.js, phases 3 and 6 *)

Module MasterRun.

Section Run.

(** The layer queries at a polygon's centroid; the [try] block is the one of
    the extraction script, over the eight layers of this registry. *)
Variable query : Master.feature -> string -> Extraction.layer_query.

Definition distance_iteration (polygon : Master.feature)
    (infraDistances : gmap string Q) (entry : string * Master.layer)
    : gmap string Q :=
  let infraKey := fst entry in
  <[ ("dist_" +:+ infraKey) +:+ "_km" :=
       Extraction.recorded_distance (query polygon infraKey) ]> infraDistances.

Definition infraDistances (polygon : Master.feature) : gmap string Q :=
  fold_left (distance_iteration polygon) Master.infrastructure ∅.

(** [var safeProperties] (lines 194-210). *)
Definition safeProperties (polygon : Master.feature) : Master.feature :=
  <[ "cod_imovel" := Client.get_or polygon "cod_imovel" (Master.Text "UNKNOWN") ]>
  (<[ "municipio" := Client.get_or polygon "municipio" (Master.Text "UNKNOWN") ]>
   (<[ "area_ha" := Client.get_or polygon "AREA_HA" (Master.Number 0) ]> ∅)).

(** [calculateInfrastructureDistances(polygons)] (lines 165-214): a new
    feature on the polygon's geometry, with the safe properties and the
    distances. *)
Definition calculateInfrastructureDistances (polygons : list Master.feature)
    : list Master.feature :=
  map (fun polygon =>
         Master.set (safeProperties polygon) (Client.numbers (infraDistances polygon)))
      polygons.

Definition chunkSize : nat := 500.

Variable featureList : list Master.feature.

(** One turn of the [for] loop (lines 288-300). *)
Definition chunk_export (i : nat) : Client.export :=
  let start := (i * chunkSize)%nat in
  let chunk := Client.slice start (start + chunkSize) featureList in
  {| Client.collection := calculateInfrastructureDistances chunk;
     Client.description := "CP2B_Infrastructure_Chunk_" +:+ Client.two_digits i;
     Client.fileFormat := "CSV";
     Client.folder := "CP2B_Results" |}.

Definition exports : list Client.export := map chunk_export (seq 0 25).

End Run.

End MasterRun.

(** ** Readings of the computed objects *)

(** One field of the object returned for a buffer, by its name without the
    suffix. *)
Definition biomass_field (area_of_class : Z -> Q) (bufferSuffix field : string)
    : option Q :=
  match Corrected.calculateBiomassInBuffer_CORRECTED area_of_class bufferSuffix with
  | Some r => r !! (field +:+ bufferSuffix)
  | None => None
  end.

(** The sums of the per-class potentials over the registry. *)
Definition methane_sum (area_of_class : Z -> Q) : Q :=
  Qsum (map (class_methane_potential area_of_class) Corrected.crops).

Definition seasonal_sum (area_of_class : Z -> Q) : Q :=
  Qsum (map (class_seasonal_potential area_of_class) Corrected.crops).

(** The keys of an object. *)
Definition keys_of {V : Type} (object : gmap string V) : list string :=
  map fst (map_to_list object).

(** * Properties *)

(** ** The biomass calculation *)

Section BiomassProperties.

Import Corrected.

(** Runs the script on the registry, leaving the arithmetic and the stores of
    [biomassResults] in place. *)
Ltac run_script :=
  lazy [calculateBiomassInBuffer_CORRECTED biomass_in_buffer for_each_crop
        crop_iteration store_potentials add_totals
        crops pasture sugarcane soy corn rice coffee citrus
        class livestock_density_heads_ha annual_manure_ton_ha productivity_ton_ha
        biogas_factor_nm3_ton methane_content seasonal_factor
        biomassResults totalBiomassM3 totalMethaneM3
        String.eqb Ascii.eqb Bool.eqb String.append].

(** Reads one key of the object built by a chain of stores. *)
Ltac read_key :=
  lazy [String.append];
  repeat (rewrite lookup_insert_ne by congruence);
  rewrite lookup_insert_eq.

(** Spells the sums over the registry out. *)
Ltac unfold_registry :=
  lazy [Qsum map fold_right class_methane_potential class_seasonal_potential
        other_than_class List.filter negb Z.eqb Pos.eqb residue_yield fst snd
        crops pasture sugarcane soy corn rice coffee citrus
        class annual_manure_ton_ha productivity_ton_ha
        biogas_factor_nm3_ton methane_content seasonal_factor
        String.eqb Ascii.eqb Bool.eqb].

Lemma annual_manure_value : 2.5 * 10 * 365 / 1000 == 9.125.
Proof. reflexivity. Qed.

(** The registry is complete for the calculation: the script returns an
    object for every buffer. *)
Lemma calculateBiomassInBuffer_CORRECTED_returns
    (area_of_class : Z -> Q) (bufferSuffix : string) :
  exists r, calculateBiomassInBuffer_CORRECTED area_of_class bufferSuffix = Some r.
Proof. eexists. run_script. reflexivity. Qed.

(** C2. For every entry of the residue registry, with [a] the hectares of its
    land-use class in the buffer, [p] its tonnage per hectare, [b] its biogas
    factor, [s] its seasonal factor and [m] its methane fraction, the methane
    potential stored for the entry is a * p * b * s * m, and the stored total
    methane potential is the sum of these products over the registry.  With
    100 ha of sugarcane (p = 70.23, b = 94, s = 0.75, m = 0.55) the stored
    methane potential is 100 * 70.23 * 94 * 0.75 * 0.55, that is 272316.825
    cubic metres. *)
Theorem methane_potential_chain (area_of_class : Z -> Q) (bufferSuffix : string) :
  exists r,
    calculateBiomassInBuffer_CORRECTED area_of_class bufferSuffix = Some r /\
    (forall cropKey c, In (cropKey, c) crops ->
       exists p,
         residue_yield cropKey c = Some p /\
         r !! ((cropKey +:+ "_methane_m3") +:+ bufferSuffix) =
           Some (area_of_class (class c) * p * biogas_factor_nm3_ton c
                 * seasonal_factor c * methane_content c)) /\
    (exists total,
       r !! ("total_methane_potential" +:+ bufferSuffix) = Some total /\
       total == Qsum (map (class_methane_potential area_of_class) crops)) /\
    (area_of_class 20%Z == 100 ->
       exists v,
         r !! ("sugarcane_methane_m3" +:+ bufferSuffix) = Some v /\
         v == 100 * 70.23 * 94 * 0.75 * 0.55 /\
         v == 272316.825).
Proof.
  eexists. split; [run_script; reflexivity|]. split; [|split].
  - intros cropKey c Hin. simpl in Hin.
    repeat (destruct Hin as [Heq|Hin]; [inversion Heq; subst cropKey c; clear Heq|]);
      try contradiction;
      eexists; (split; [reflexivity|]); read_key; reflexivity.
  - eexists. split; [read_key; reflexivity|]. unfold_registry. ring.
  - intros H100. eexists. split; [read_key; reflexivity|].
    rewrite H100. split; reflexivity.
Qed.

Lemma methane_potential_chain_witness :
  exists r v,
    calculateBiomassInBuffer_CORRECTED cane_only "_30km" = Some r /\
    r !! "sugarcane_methane_m3_30km" =
      Some (cane_only 20 * 70.23 * 94 * 0.75 * 0.55) /\
    r !! "sugarcane_methane_m3_30km" = Some v /\
    v == 272316.825.
Proof.
  destruct (methane_potential_chain cane_only "_30km") as (r & Hr & Hall & _ & Hex).
  destruct (Hall "sugarcane" sugarcane) as (p & Hp & Hcane).
  { simpl. right. left. reflexivity. }
  destruct (Hex (Qeq_refl 100)) as (v & Hv & _ & Hv').
  injection Hp as <-.
  exists r, v. repeat split; assumption.
Defined.

(** C10. Soy and corn both carry land-use class 39.  For every buffer the
    hectares of class 39 are stored as the area of both entries, each entry
    gets its own methane potential from them, and the totals of seasonal
    biogas and of methane hold, next to the other classes, the class-39
    hectares once with the soy coefficients and once with the corn
    coefficients. *)
Theorem class_39_counted_for_soy_and_corn
    (area_of_class : Z -> Q) (bufferSuffix : string) :
  class soy = 39%Z /\ class corn = 39%Z /\
  exists r biogas methane,
    calculateBiomassInBuffer_CORRECTED area_of_class bufferSuffix = Some r /\
    r !! ("soy_ha" +:+ bufferSuffix) = Some (area_of_class 39%Z) /\
    r !! ("corn_ha" +:+ bufferSuffix) = Some (area_of_class 39%Z) /\
    r !! ("soy_methane_m3" +:+ bufferSuffix) =
      Some (area_of_class 39%Z * 2.84 * 215 * 0.4 * 0.50) /\
    r !! ("corn_methane_m3" +:+ bufferSuffix) =
      Some (area_of_class 39%Z * 7.85 * 225 * 0.5 * 0.52) /\
    r !! ("total_biomass_potential" +:+ bufferSuffix) = Some biogas /\
    r !! ("total_methane_potential" +:+ bufferSuffix) = Some methane /\
    biogas ==
      Qsum (map (class_seasonal_potential area_of_class) (other_than_class 39 crops))
      + area_of_class 39%Z * (2.84 * 215 * 0.4)
      + area_of_class 39%Z * (7.85 * 225 * 0.5) /\
    methane ==
      Qsum (map (class_methane_potential area_of_class) (other_than_class 39 crops))
      + area_of_class 39%Z * (2.84 * 215 * 0.4 * 0.50)
      + area_of_class 39%Z * (7.85 * 225 * 0.5 * 0.52).
Proof.
  split; [reflexivity|]. split; [reflexivity|].
  eexists. eexists. eexists. split; [run_script; reflexivity|].
  repeat (split; [read_key; reflexivity|]).
  split; unfold_registry; ring.
Qed.

(** The entries left once class 39 is set aside do not read it. *)
Lemma other_than_class_39 :
  map fst (other_than_class 39 crops) =
    ["pasture"; "sugarcane"; "rice"; "coffee"; "citrus"].
Proof. reflexivity. Qed.

(** C1, as the script has it.  The biomass score stored for a unit is its
    total methane potential divided by the constant 1000.  It is computed from
    the unit's own buffer alone and is not negative when no area is; it is not
    scaled against the other units of the run and has no ceiling at 100. *)
Theorem biomass_score_is_total_over_1000
    (area_of_class : Z -> Q) (bufferSuffix : string) :
  exists r total score,
    calculateBiomassInBuffer_CORRECTED area_of_class bufferSuffix = Some r /\
    r !! ("total_methane_potential" +:+ bufferSuffix) = Some total /\
    r !! ("biomass_score" +:+ bufferSuffix) = Some score /\
    score = total / 1000 /\
    total == Qsum (map (class_methane_potential area_of_class) crops) /\
    ((forall code, 0 <= area_of_class code) -> 0 <= score).
Proof.
  eexists. eexists. eexists. split; [run_script; reflexivity|].
  repeat (split; [read_key; reflexivity|]).
  split; [reflexivity|].
  split; [unfold_registry; ring|].
  intros Hpos.
  pose proof (Hpos 15%Z). pose proof (Hpos 20%Z). pose proof (Hpos 39%Z).
  pose proof (Hpos 40%Z). pose proof (Hpos 46%Z). pose proof (Hpos 47%Z).
  apply Qle_shift_div_l; [reflexivity|].
  rewrite annual_manure_value.
  lra.
Qed.

Lemma cane_only_nonneg (code : Z) : 0 <= cane_only code.
Proof. unfold cane_only. destruct (code =? 20)%Z; discriminate. Qed.

Lemma biomass_score_is_total_over_1000_witness :
  exists r score,
    calculateBiomassInBuffer_CORRECTED cane_only "_30km" = Some r /\
    r !! "biomass_score_30km" = Some score /\
    0 <= score.
Proof.
  destruct (biomass_score_is_total_over_1000 cane_only "_30km")
    as (r & total & score & Hr & _ & Hscore & _ & _ & Hpos).
  exists r, score. split; [exact Hr|]. split; [exact Hscore|].
  apply Hpos. exact cane_only_nonneg.
Defined.

(** C1, as stated, fails: in a run whose only unit holds 100 ha of sugarcane
    the stored biomass score is 272.316825, above 100, where min-max scaling
    against the run's maximum gives 100. *)
Lemma biomass_score_not_minmax :
  exists r total score,
    calculateBiomassInBuffer_CORRECTED cane_only "_30km" = Some r /\
    r !! "total_methane_potential_30km" = Some total /\
    r !! "biomass_score_30km" = Some score /\
    total == 272316.825 /\
    score == 272.316825 /\
    ~ score <= 100 /\
    Spec.minmax_biomass_score [total] total == 100 /\
    ~ score == Spec.minmax_biomass_score [total] total.
Proof.
  eexists. eexists. eexists. split; [run_script; reflexivity|].
  repeat (split; [read_key; reflexivity|]).
  split; [vm_compute; reflexivity|].
  split; [vm_compute; reflexivity|].
  split; [apply Qlt_not_le; vm_compute; reflexivity|].
  split; [vm_compute; reflexivity|].
  vm_compute. discriminate.
Qed.

(** ** More on the biomass calculation *)

Ltac read_field :=
  unfold biomass_field; run_script; read_key.

Ltac absent_key :=
  lazy [String.append];
  repeat (rewrite lookup_insert_ne by congruence);
  apply lookup_empty.

Ltac each_crop Hin cropKey c :=
  simpl in Hin;
  repeat (destruct Hin as [Heq|Hin]; [inversion Heq; subst cropKey c; clear Heq|]);
  try contradiction.

Lemma total_methane_field (area_of_class : Z -> Q) (bufferSuffix : string) :
  exists t,
    biomass_field area_of_class bufferSuffix "total_methane_potential" = Some t /\
    t == methane_sum area_of_class.
Proof.
  eexists. split; [read_field; reflexivity|].
  unfold methane_sum. unfold_registry. ring.
Qed.

Lemma total_biomass_field (area_of_class : Z -> Q) (bufferSuffix : string) :
  exists t,
    biomass_field area_of_class bufferSuffix "total_biomass_potential" = Some t /\
    t == seasonal_sum area_of_class.
Proof.
  eexists. split; [read_field; reflexivity|].
  unfold seasonal_sum. unfold_registry. ring.
Qed.

Lemma biomass_score_field (area_of_class : Z -> Q) (bufferSuffix : string) :
  exists s,
    biomass_field area_of_class bufferSuffix "biomass_score" = Some s /\
    s == methane_sum area_of_class / 1000.
Proof.
  eexists. split; [read_field; reflexivity|].
  unfold methane_sum. unfold_registry. apply Qmult_comp; [ring|reflexivity].
Qed.

(** The two sums, spelled out over the six land-use classes. *)
Lemma methane_sum_value (area_of_class : Z -> Q) :
  methane_sum area_of_class ==
    area_of_class 15%Z * 1095
    + area_of_class 20%Z * 2723.16825
    + area_of_class 39%Z * (122.12 + 459.225)
    + area_of_class 40%Z * 688.248
    + area_of_class 46%Z * 801.8584
    + area_of_class 47%Z * 720.0468.
Proof.
  unfold methane_sum. unfold_registry. rewrite annual_manure_value. ring.
Qed.

Lemma seasonal_sum_value (area_of_class : Z -> Q) :
  seasonal_sum area_of_class ==
    area_of_class 15%Z * 1825
    + area_of_class 20%Z * 4951.215
    + area_of_class 39%Z * (244.24 + 883.125)
    + area_of_class 40%Z * 1251.36
    + area_of_class 46%Z * 1293.32
    + area_of_class 47%Z * 1241.46.
Proof.
  unfold seasonal_sum. unfold_registry. rewrite annual_manure_value. ring.
Qed.

(** For every harvested entry the stored columns follow one from the other:
    production is hectares times productivity, biogas is production times
    the factor, the seasonal volume is biogas times the seasonal factor and
    methane is the seasonal volume times the methane content. *)
Theorem crop_columns_chain (area_of_class : Z -> Q) (bufferSuffix : string)
    (cropKey : string) (c : crop)
    (Hin : In (cropKey, c) crops) (Hcrop : cropKey <> "pasture") :
  exists productivity ha production biogas seasonal methane,
    productivity_ton_ha c = Some productivity /\
    biomass_field area_of_class bufferSuffix (cropKey +:+ "_ha") = Some ha /\
    biomass_field area_of_class bufferSuffix (cropKey +:+ "_production_ton")
      = Some production /\
    biomass_field area_of_class bufferSuffix (cropKey +:+ "_biogas_m3") = Some biogas /\
    biomass_field area_of_class bufferSuffix (cropKey +:+ "_seasonal_m3")
      = Some seasonal /\
    biomass_field area_of_class bufferSuffix (cropKey +:+ "_methane_m3") = Some methane /\
    ha = area_of_class (class c) /\
    production = ha * productivity /\
    biogas = production * biogas_factor_nm3_ton c /\
    seasonal = biogas * seasonal_factor c /\
    methane = seasonal * methane_content c /\
    biomass_field area_of_class bufferSuffix (cropKey +:+ "_livestock_heads") = None /\
    biomass_field area_of_class bufferSuffix (cropKey +:+ "_manure_ton") = None.
Proof.
  each_crop Hin cropKey c; try (exfalso; apply Hcrop; reflexivity);
    do 6 eexists;
    (split; [reflexivity|]);
    do 5 (split; [read_field; reflexivity|]);
    do 5 (split; [reflexivity|]);
    split; unfold biomass_field; run_script; absent_key.
Qed.


(** With no negative area, the methane total lies between 50 and 62 percent
    of the seasonal biogas total, the range of the methane contents of the
    registry. *)
Theorem methane_share_of_biogas (area_of_class : Z -> Q) (bufferSuffix : string)
    (biogas methane : Q)
    (Hpos : forall code, 0 <= area_of_class code)
    (Hbiogas :
       biomass_field area_of_class bufferSuffix "total_biomass_potential" = Some biogas)
    (Hmethane :
       biomass_field area_of_class bufferSuffix "total_methane_potential" = Some methane) :
  0.50 * biogas <= methane /\ methane <= 0.62 * biogas /\ 0 <= methane.
Proof.
  destruct (total_biomass_field area_of_class bufferSuffix) as (b & Hb & Eb).
  destruct (total_methane_field area_of_class bufferSuffix) as (m & Hm & Em).
  rewrite Hb in Hbiogas. rewrite Hm in Hmethane.
  injection Hbiogas as <-. injection Hmethane as <-.
  rewrite Eb, Em, seasonal_sum_value, methane_sum_value.
  pose proof (Hpos 15%Z). pose proof (Hpos 20%Z). pose proof (Hpos 39%Z).
  pose proof (Hpos 40%Z). pose proof (Hpos 46%Z). pose proof (Hpos 47%Z).
  repeat split; lra.
Qed.

(** Growing the area of any class never lowers the biomass score, nor the
    two totals. *)
Theorem biomass_score_monotone (area1 area2 : Z -> Q) (bufferSuffix : string)
    (Hle : forall code, area1 code <= area2 code) :
  exists s1 s2 m1 m2 b1 b2,
    biomass_field area1 bufferSuffix "biomass_score" = Some s1 /\
    biomass_field area2 bufferSuffix "biomass_score" = Some s2 /\
    biomass_field area1 bufferSuffix "total_methane_potential" = Some m1 /\
    biomass_field area2 bufferSuffix "total_methane_potential" = Some m2 /\
    biomass_field area1 bufferSuffix "total_biomass_potential" = Some b1 /\
    biomass_field area2 bufferSuffix "total_biomass_potential" = Some b2 /\
    s1 <= s2 /\ m1 <= m2 /\ b1 <= b2.
Proof.
  destruct (biomass_score_field area1 bufferSuffix) as (s1 & Hs1 & Es1).
  destruct (biomass_score_field area2 bufferSuffix) as (s2 & Hs2 & Es2).
  destruct (total_methane_field area1 bufferSuffix) as (m1 & Hm1 & Em1).
  destruct (total_methane_field area2 bufferSuffix) as (m2 & Hm2 & Em2).
  destruct (total_biomass_field area1 bufferSuffix) as (b1 & Hb1 & Eb1).
  destruct (total_biomass_field area2 bufferSuffix) as (b2 & Hb2 & Eb2).
  exists s1, s2, m1, m2, b1, b2.
  do 6 (split; [assumption|]).
  pose proof (Hle 15%Z). pose proof (Hle 20%Z). pose proof (Hle 39%Z).
  pose proof (Hle 40%Z). pose proof (Hle 46%Z). pose proof (Hle 47%Z).
  assert (Hm : methane_sum area1 <= methane_sum area2)
    by (rewrite !methane_sum_value; lra).
  split; [|split].
  - rewrite Es1, Es2. unfold Qdiv. apply Qmult_le_compat_r; [exact Hm|discriminate].
  - rewrite Em1, Em2. exact Hm.
  - rewrite Eb1, Eb2, !seasonal_sum_value. lra.
Qed.

(** A buffer without any of the six classes gets a zero in every column. *)
Theorem empty_buffer_all_zero (area_of_class : Z -> Q) (bufferSuffix : string)
    (Hzero : forall code, area_of_class code == 0) :
  exists r,
    calculateBiomassInBuffer_CORRECTED area_of_class bufferSuffix = Some r /\
    forall key v, r !! key = Some v -> v == 0.
Proof.
  eexists. split; [run_script; reflexivity|].
  apply map_Forall_lookup.
  repeat (apply map_Forall_insert_2;
          [rewrite ?Hzero; try rewrite annual_manure_value; reflexivity|]).
  apply map_Forall_empty.
Qed.

(** The 39 stores of one call go to 39 different keys: no column overwrites
    another, for any suffix. *)
Theorem biomass_results_size (area_of_class : Z -> Q) (bufferSuffix : string) :
  exists r,
    calculateBiomassInBuffer_CORRECTED area_of_class bufferSuffix = Some r /\
    size r = 39%nat.
Proof.
  eexists. split; [run_script; reflexivity|].
  repeat (rewrite map_size_insert_None by
            (repeat (rewrite lookup_insert_ne by congruence); apply lookup_empty)).
  rewrite map_size_empty. reflexivity.
Qed.

(** The per-hectare figure written next to each entry agrees with what the
    calculation stores: with no negative area, the stored biogas of an entry
    is within half a cubic metre per hectare of hectares times
    [biogas_m3_ha_year]. *)
Theorem biogas_within_documented_figure (area_of_class : Z -> Q)
    (bufferSuffix : string) (cropKey : string) (c : crop)
    (Hin : In (cropKey, c) crops) (Hpos : 0 <= area_of_class (class c)) :
  exists biogas,
    biomass_field area_of_class bufferSuffix (cropKey +:+ "_biogas_m3") = Some biogas /\
    area_of_class (class c) * (biogas_m3_ha_year c - 0.5) <= biogas /\
    biogas <= area_of_class (class c) * (biogas_m3_ha_year c + 0.5).
Proof.
  each_crop Hin cropKey c;
    (eexists; split; [read_field; reflexivity|]);
    simpl in Hpos |- *; try rewrite annual_manure_value; split; lra.
Qed.

Lemma crop_columns_chain_witness :
  exists production,
    biomass_field cane_only "_30km" "sugarcane_production_ton" = Some production /\
    production = cane_only 20 * 70.23.
Proof.
  destruct (crop_columns_chain cane_only "_30km" "sugarcane" sugarcane)
    as (p & ha & production & biogas & seasonal & methane
        & Hp & _ & Hproduction & _ & _ & _ & Hha & Heq & _).
  - simpl. right. left. reflexivity.
  - discriminate.
  - injection Hp as <-. exists production. split; [exact Hproduction|].
    rewrite Heq, Hha. reflexivity.
Defined.

Lemma methane_share_of_biogas_witness :
  exists biogas methane,
    biomass_field cane_only "_30km" "total_biomass_potential" = Some biogas /\
    biomass_field cane_only "_30km" "total_methane_potential" = Some methane /\
    0.50 * biogas <= methane /\ methane <= 0.62 * biogas.
Proof.
  destruct (total_biomass_field cane_only "_30km") as (biogas & Hbiogas & _).
  destruct (total_methane_field cane_only "_30km") as (methane & Hmethane & _).
  destruct (methane_share_of_biogas cane_only "_30km" biogas methane
              cane_only_nonneg Hbiogas Hmethane) as (Hlow & Hhigh & _).
  exists biogas, methane. repeat split; assumption.
Defined.

Lemma biomass_score_monotone_witness :
  exists s1 s2,
    biomass_field cane_only "_30km" "biomass_score" = Some s1 /\
    biomass_field (fun code => cane_only code + cane_only code) "_30km"
      "biomass_score" = Some s2 /\
    s1 <= s2.
Proof.
  destruct (biomass_score_monotone cane_only
              (fun code => cane_only code + cane_only code) "_30km")
    as (s1 & s2 & _ & _ & _ & _ & H1 & H2 & _ & _ & _ & _ & Hle & _).
  - intros code. pose proof (cane_only_nonneg code). lra.
  - exists s1, s2. repeat split; assumption.
Defined.

Lemma empty_buffer_all_zero_witness :
  exists r,
    calculateBiomassInBuffer_CORRECTED (fun _ => 0) "_30km" = Some r /\
    forall key v, r !! key = Some v -> v == 0.
Proof.
  apply (empty_buffer_all_zero (fun _ => 0) "_30km").
  intros code. reflexivity.
Defined.

Lemma biogas_within_documented_figure_witness :
  exists biogas,
    biomass_field cane_only "_30km" "sugarcane_biogas_m3" = Some biogas /\
    cane_only 20 * (6602 - 0.5) <= biogas /\
    biogas <= cane_only 20 * (6602 + 0.5).
Proof.
  apply (biogas_within_documented_figure cane_only "_30km" "sugarcane" sugarcane).
  - simpl. right. left. reflexivity.
  - apply cane_only_nonneg.
Defined.

End BiomassProperties.

(** ** The distance score *)

Section DistanceProperties.

Import Methodology.

Lemma distance_score_near (distance_km max_distance : Q) :
  distance_km <= 1 -> calculate_distance_score distance_km max_distance = 100.
Proof.
  intros Hle. unfold calculate_distance_score.
  apply Qle_bool_iff in Hle. rewrite Hle. reflexivity.
Qed.

Lemma distance_score_far (distance_km max_distance : Q) :
  1 < distance_km -> max_distance <= distance_km ->
  calculate_distance_score distance_km max_distance = 0.
Proof.
  intros Hgt Hge. unfold calculate_distance_score.
  destruct (Qle_bool distance_km 1) eqn:Hnear.
  - apply Qle_bool_iff in Hnear. lra.
  - apply Qle_bool_iff in Hge. rewrite Hge. reflexivity.
Qed.

Lemma distance_score_between (distance_km max_distance : Q) :
  1 < distance_km -> distance_km < max_distance ->
  calculate_distance_score distance_km max_distance ==
    100 * (1 - distance_km / max_distance).
Proof.
  intros Hgt Hlt. unfold calculate_distance_score.
  destruct (Qle_bool distance_km 1) eqn:Hnear.
  { apply Qle_bool_iff in Hnear. lra. }
  destruct (Qle_bool max_distance distance_km) eqn:Hfar.
  { apply Qle_bool_iff in Hfar. lra. }
  assert (Hpos : 0 < max_distance) by lra.
  assert (Hratio : distance_km / max_distance <= 1).
  { apply Qle_shift_div_r; [exact Hpos|]. lra. }
  rewrite Q.max_r; [ring|]. lra.
Qed.




End DistanceProperties.

(** ** The recorded distances *)

Section ExtractionProperties.

Import Extraction.

Ltac run_extraction :=
  lazy [calculateInfrastructureDistances distances_over fold_left
        distance_iteration infrastructure fst String.append].

(** Every layer of the registry gets its key, holding the value of its own
    query. *)
Lemma recorded_distance_lookup (query : string -> layer_query)
    (infraKey : string) (l : layer) :
  In (infraKey, l) infrastructure ->
  calculateInfrastructureDistances query !! (("dist_" +:+ infraKey) +:+ "_km") =
    Some (recorded_distance (query infraKey)).
Proof.
  intros Hin. simpl in Hin.
  repeat (destruct Hin as [Heq|Hin]; [inversion Heq; subst infraKey l; clear Heq|]);
    try contradiction;
    run_extraction;
    repeat (rewrite lookup_insert_ne by congruence);
    apply lookup_insert_eq.
Qed.

(** C9. When the distance computation of a layer throws, the value recorded
    under the layer's key is -1 (km), and the distance score of that value is
    the maximal 100 for every [max_distance], since -1 is below the cutoff:
    not 0, not an error, not a missing key. *)
Theorem failed_query_scores_100 (query : string -> layer_query)
    (infraKey : string) (l : layer) (max_distance : Q)
    (Hin : In (infraKey, l) infrastructure) (Hthrew : query infraKey = Threw) :
  calculateInfrastructureDistances query !! (("dist_" +:+ infraKey) +:+ "_km") =
    Some (-1) /\
  -1 <= min_threshold /\
  Methodology.calculate_distance_score (-1) max_distance = 100.
Proof.
  split.
  - rewrite (recorded_distance_lookup query infraKey l Hin), Hthrew. reflexivity.
  - split; [discriminate|reflexivity].
Qed.

Lemma failed_query_scores_100_witness :
  calculateInfrastructureDistances substations_fail !! "dist_subestacoes_km" =
    Some (-1) /\
  Methodology.calculate_distance_score (-1) Methodology.default_max_distance = 100.
Proof.
  destruct (failed_query_scores_100 substations_fail "subestacoes"
              {| collection := "projects/prova-de-conceito-cp2b/assets/SE_EXISTENTE";
                 name := "Subestações Elétricas" |}
              Methodology.default_max_distance) as (Hrec & _ & Hscore).
  - simpl. left. reflexivity.
  - reflexivity.
  - split; [exact Hrec|exact Hscore].
Defined.

(** A layer with no feature inside the 50 km search radius is recorded at
    999.999 km, which scores 0 for every [max_distance] up to that value. *)
Lemma nothing_nearby_scores_0 (query : string -> layer_query)
    (infraKey : string) (l : layer) (distance max_distance : Q) :
  In (infraKey, l) infrastructure -> query infraKey = Answered 0 distance ->
  max_distance <= 999.999 ->
  exists d,
    calculateInfrastructureDistances query !! (("dist_" +:+ infraKey) +:+ "_km") =
      Some d /\
    d == 999.999 /\
    Methodology.calculate_distance_score d max_distance = 0.
Proof.
  intros Hin Hq Hmax.
  rewrite (recorded_distance_lookup query infraKey l Hin), Hq.
  eexists. split; [reflexivity|]. split; [reflexivity|].
  apply distance_score_far; [reflexivity|].
  apply Qle_trans with 999.999; [exact Hmax|]. vm_compute. discriminate.
Qed.

(** Outside the 10 km pass no distance is recorded at all. *)
Lemma no_distances_outside_10km (query : string -> layer_query)
    (distanceKey key : string) :
  distanceKey <> "10km" -> infraResults query distanceKey !! key = None.
Proof.
  intros Hne. unfold infraResults.
  destruct (String.eqb_spec distanceKey "10km") as [Heq|_]; [contradiction|].
  apply lookup_empty.
Qed.

End ExtractionProperties.

(** ** The registries and placeholders of the master script *)

Section MasterProperties.

Import Master.

(** C3. The weights of the infrastructure registry of the master script:
    0.20 + 0.15 + 0.25 + 0.20 + 0.10 + 0.05 + 0.08 + 0.05 is 1.08, not 1.0,
    while the weights the methodology document lists add up to 100 percent. *)
Theorem infrastructure_weights_sum :
  infrastructure_subweights = [0.20; 0.15; 0.25; 0.20; 0.10; 0.05; 0.08; 0.05] /\
  Qsum infrastructure_subweights == 1.08 /\
  ~ Qsum infrastructure_subweights == 1 /\
  Qsum (map snd Methodology.infrastructure_components) == 100.
Proof.
  split; [reflexivity|]. split; [reflexivity|]. split; [|reflexivity].
  vm_compute. discriminate.
Qed.

Lemma set_lookup_new (f properties : feature) (key : string) (v : value) :
  properties !! key = Some v -> set f properties !! key = Some v.
Proof. intros Hkey. unfold set. apply lookup_union_Some_l. exact Hkey. Qed.

Lemma calculateMCDAScores_restriction (f : feature) :
  calculateMCDAScores f !! "restriction_score" = Some (Number 0).
Proof.
  unfold calculateMCDAScores. apply set_lookup_new.
  repeat (rewrite lookup_insert_ne by congruence).
  apply lookup_insert_eq.
Qed.

(** C6. The restriction step of the master script is its placeholder: for
    every polygon it stores a total restriction score of 0, and the MCDA step
    takes 0 as the restriction score, whatever the polygon overlaps.  The
    rule of the claim gives 100 to a unit that overlaps no category and 95 to
    one that only overlaps the rural settlements (severity 5). *)
Theorem restriction_score_is_placeholder (polygon : feature) :
  (exists scored,
     calculateRestrictionScores [polygon] = [scored] /\
     scored !! "total_restriction_score" = Some (Number 0)) /\
  calculateMCDAScores polygon !! "restriction_score" = Some (Number 0) /\
  Spec.restriction_score (overlaps_of []) == 100 /\
  Spec.restriction_score (overlaps_of ["assentamentos"]) == 95.
Proof.
  split.
  - eexists. split; [reflexivity|].
    apply set_lookup_new. apply lookup_insert_eq.
  - split; [apply calculateMCDAScores_restriction|].
    split; reflexivity.
Qed.

End MasterProperties.

(** ** The restriction rule of the specification *)

Section RestrictionRule.

Import Spec.

Lemma restriction_score_floor (overlaps : list (string * overlap)) :
  0 <= restriction_score overlaps /\
  (100 <= cumulative_penalty overlaps -> restriction_score overlaps == 0) /\
  (cumulative_penalty overlaps <= 100 ->
     restriction_score overlaps == 100 - cumulative_penalty overlaps).
Proof.
  unfold restriction_score. split; [apply Q.le_max_l|]. split; intros Hp.
  - apply Q.max_l. lra.
  - apply Q.max_r. lra.
Qed.

End RestrictionRule.

(** ** Overall confidence *)

Section ConfidenceProperties.

Import DataCompletenessTracker.

Lemma overall_confidence_lower_bound (b i r : Q) :
  overall_confidence b i r <= b /\
  overall_confidence b i r <= i /\
  overall_confidence b i r <= r.
Proof.
  unfold overall_confidence.
  pose proof (Q.le_min_l b (Qmin i r)).
  pose proof (Q.le_min_r b (Qmin i r)).
  pose proof (Q.le_min_l i r).
  pose proof (Q.le_min_r i r).
  repeat split; lra.
Qed.

Lemma overall_confidence_attained (b i r : Q) :
  overall_confidence b i r == b \/
  overall_confidence b i r == i \/
  overall_confidence b i r == r.
Proof.
  unfold overall_confidence.
  destruct (Q.min_spec b (Qmin i r)) as [[_ ->]|[_ ->]]; [left; reflexivity|].
  destruct (Q.min_spec i r) as [[_ ->]|[_ ->]];
    [right; left; reflexivity|right; right; reflexivity].
Qed.

(** C7. The overall confidence reported for a unit is the minimum of its
    three pillar confidences: it is below each of them and equal to one of
    them.  With a biomass confidence of 0.5 and the other two at 1.0 it is
    0.5, where their average is 5/6. *)
Theorem overall_confidence_is_minimum (manifest : gset string) :
  reported_confidence manifest <= biomass_confidence manifest /\
  reported_confidence manifest <= infrastructure_confidence manifest /\
  reported_confidence manifest <= restriction_confidence manifest /\
  (reported_confidence manifest == biomass_confidence manifest \/
   reported_confidence manifest == infrastructure_confidence manifest \/
   reported_confidence manifest == restriction_confidence manifest) /\
  (forall b i r, b == 0.5 -> i == 1 -> r == 1 ->
     overall_confidence b i r == 0.5 /\
     ~ overall_confidence b i r == average_confidence b i r).
Proof.
  unfold reported_confidence.
  destruct (overall_confidence_lower_bound (biomass_confidence manifest)
              (infrastructure_confidence manifest) (restriction_confidence manifest))
    as (Hb & Hi & Hr).
  repeat (split; [assumption|]).
  split; [apply overall_confidence_attained|].
  intros b i r Hb' Hi' Hr'.
  assert (Hmin : overall_confidence b i r == 0.5).
  { unfold overall_confidence.
    rewrite (Q.min_l i r) by lra. rewrite Q.min_l by lra. exact Hb'. }
  split; [exact Hmin|].
  rewrite Hmin. unfold average_confidence. rewrite Hb', Hi', Hr'.
  vm_compute. discriminate.
Qed.

Lemma overall_confidence_is_minimum_witness :
  biomass_confidence half_biomass_manifest == 0.5 /\
  infrastructure_confidence half_biomass_manifest == 1 /\
  restriction_confidence half_biomass_manifest == 1 /\
  reported_confidence half_biomass_manifest == 0.5.
Proof.
  assert (Hb : biomass_confidence half_biomass_manifest == 0.5) by reflexivity.
  assert (Hi : infrastructure_confidence half_biomass_manifest == 1) by reflexivity.
  assert (Hr : restriction_confidence half_biomass_manifest == 1) by reflexivity.
  destruct (overall_confidence_is_minimum half_biomass_manifest)
    as (_ & _ & _ & _ & Hex).
  destruct (Hex _ _ _ Hb Hi Hr) as (Hmin & _).
  repeat (split; [assumption|]). exact Hmin.
Defined.

End ConfidenceProperties.

(** ** Weight profiles *)

Section WeightProfileProperties.

Import WeightProfileManager.

Lemma sums_to_one_iff (ws : list Q) :
  Spec.sums_to_one ws = true <-> Qabs (Qsum ws - 1) <= 1e-3.
Proof. unfold Spec.sums_to_one, Spec.tolerance. apply Qle_bool_iff. Qed.

Lemma non_negative_iff (ws : list Q) :
  Spec.non_negative ws = true <-> forall w, In w ws -> 0 <= w.
Proof.
  unfold Spec.non_negative. rewrite forallb_forall.
  split; intros Hall w Hin; apply Qle_bool_iff, Hall, Hin.
Qed.

Lemma non_negative_false (ws : list Q) :
  Spec.non_negative ws = false <-> exists w, In w ws /\ w < 0.
Proof.
  unfold Spec.non_negative. induction ws as [|x ws IH]; simpl.
  - split; [discriminate|]. intros (w & [] & _).
  - destruct (Qle_bool 0 x) eqn:Hx; simpl.
    + rewrite IH. split.
      * intros (w & Hin & Hneg). exists w. split; [right; exact Hin|exact Hneg].
      * intros (w & [<-|Hin] & Hneg).
        -- apply Qle_bool_iff in Hx. lra.
        -- exists w. split; assumption.
    + split; [|reflexivity]. intros _. exists x. split; [left; reflexivity|].
      apply Qnot_le_lt. intros Hle. apply Qle_bool_iff in Hle. congruence.
Qed.

Lemma acceptable_iff (ws : list Q) :
  Spec.acceptable ws = true <->
  Qabs (Qsum ws - 1) <= 1e-3 /\ forall w, In w ws -> 0 <= w.
Proof.
  unfold Spec.acceptable.
  rewrite andb_true_iff, sums_to_one_iff, non_negative_iff. reflexivity.
Qed.

Lemma acceptable_false (ws : list Q) :
  Spec.acceptable ws = false <->
  ~ Qabs (Qsum ws - 1) <= 1e-3 \/ exists w, In w ws /\ w < 0.
Proof.
  unfold Spec.acceptable.
  rewrite andb_false_iff, <- non_negative_false. split.
  - intros [Hsum|Hneg]; [left|right; exact Hneg].
    intros Hle. apply sums_to_one_iff in Hle. congruence.
  - intros [Hsum|Hneg]; [left|right; exact Hneg].
    destruct (Spec.sums_to_one ws) eqn:Hb; [|reflexivity].
    exfalso. apply Hsum. apply sums_to_one_iff. exact Hb.
Qed.

(** C4. For every pair of weight sets, [create_profile] fails with
    [InvalidWeightError] exactly when one of the two sets does not sum to 1.0
    within the tolerance 1e-3 or holds a negative value; when both sets pass
    it returns a profile, and a profile it returns holds both weight sets
    as they were given, neither rescaled nor clamped. *)
Theorem create_profile_validates (top_level infra : list Q) (name : string) :
  (create_profile top_level infra name = inl InvalidWeightError <->
     ~ Qabs (Qsum top_level - 1) <= 1e-3 \/
     (exists w, In w top_level /\ w < 0) \/
     ~ Qabs (Qsum infra - 1) <= 1e-3 \/
     (exists w, In w infra /\ w < 0)) /\
  (Qabs (Qsum top_level - 1) <= 1e-3 -> (forall w, In w top_level -> 0 <= w) ->
   Qabs (Qsum infra - 1) <= 1e-3 -> (forall w, In w infra -> 0 <= w) ->
   exists p, create_profile top_level infra name = inr p) /\
  (forall p, create_profile top_level infra name = inr p ->
     top_level_weights p = top_level /\
     infra_subweights p = infra /\
     profile_name p = name).
Proof.
  unfold create_profile. split; [|split].
  - destruct (Spec.acceptable top_level) eqn:Htop;
      destruct (Spec.acceptable infra) eqn:Hinfra; simpl.
    + split; [discriminate|].
      apply acceptable_iff in Htop. apply acceptable_iff in Hinfra.
      destruct Htop as [Hts Htn]. destruct Hinfra as [His Hin].
      intros [H|[(w & Hw & Hneg)|[H|(w & Hw & Hneg)]]].
      * contradiction.
      * specialize (Htn w Hw). lra.
      * contradiction.
      * specialize (Hin w Hw). lra.
    + split; [intros _|reflexivity].
      apply acceptable_false in Hinfra. tauto.
    + split; [intros _|reflexivity].
      apply acceptable_false in Htop. tauto.
    + split; [intros _|reflexivity].
      apply acceptable_false in Htop. tauto.
  - intros Hts Htn His Hin.
    assert (Htop : Spec.acceptable top_level = true)
      by (apply acceptable_iff; split; assumption).
    assert (Hinfra : Spec.acceptable infra = true)
      by (apply acceptable_iff; split; assumption).
    rewrite Htop, Hinfra. eexists. reflexivity.
  - intros p Hp.
    destruct (Spec.acceptable top_level && Spec.acceptable infra);
      [|discriminate].
    injection Hp as <-. repeat split.
Qed.

Lemma create_profile_validates_witness :
  create_profile pillar_weights infrastructure_subweights "master"
    = inl InvalidWeightError /\
  exists p,
    create_profile pillar_weights documented_subweights "literature" = inr p /\
    top_level_weights p = pillar_weights /\
    infra_subweights p = documented_subweights.
Proof.
  destruct (create_profile_validates pillar_weights infrastructure_subweights
              "master") as (Hfails & _).
  destruct (create_profile_validates pillar_weights documented_subweights
              "literature") as (_ & Hpasses & Hkept).
  split.
  - apply Hfails. right. right. left. vm_compute. intros H. apply H. reflexivity.
  - destruct Hpasses as (p & Hp).
    + vm_compute. discriminate.
    + intros w Hw. apply (non_negative_iff pillar_weights); [reflexivity|exact Hw].
    + vm_compute. discriminate.
    + intros w Hw.
      apply (non_negative_iff documented_subweights); [reflexivity|exact Hw].
    + exists p. split; [exact Hp|].
      destruct (Hkept p Hp) as (Htop & Hinfra & _). split; assumption.
Defined.

End WeightProfileProperties.

(** ** Unmeasured layers in the infrastructure formula *)

Section UnmeasuredLayers.

Import Extraction.









End UnmeasuredLayers.

(** ** Chunks and exports *)

Section ClientProperties.

Import Client.

Lemma slice_take_drop {A : Type} (l : list A) (start len : nat) :
  slice start (start + len) l = take len (drop start l).
Proof.
  unfold slice. replace (start + len - start)%nat with len by lia. reflexivity.
Qed.

(** Consecutive chunks of k elements, n of them, are the first n * k
    elements, in order and without overlap. *)
Lemma slice_chunks {A : Type} (l : list A) (k n : nat) :
  concat (map (fun i => slice (i * k) (i * k + k) l) (seq 0 n)) = take (n * k) l.
Proof.
  induction n as [|n IH].
  - reflexivity.
  - rewrite seq_S, map_app, concat_app, IH. simpl.
    rewrite slice_take_drop, app_nil_r, take_take_drop.
    f_equal. lia.
Qed.

Lemma Forall2_concat {A B : Type} (P : A -> B -> Prop)
    (ls : list (list A)) (ks : list (list B)) :
  Forall2 (Forall2 P) ls ks -> Forall2 P (concat ls) (concat ks).
Proof.
  induction 1 as [|l k ls ks Hlk _ IH]; simpl.
  - constructor.
  - apply Forall2_app; assumption.
Qed.

Lemma set_numbers_lookup (polygon : Master.feature) (properties : gmap string Q)
    (key : string) :
  Master.set polygon (numbers properties) !! key =
    match properties !! key with
    | Some v => Some (Master.Number v)
    | None => polygon !! key
    end.
Proof.
  unfold Master.set, numbers. rewrite lookup_union, lookup_fmap.
  destruct (properties !! key); simpl; destruct (polygon !! key); reflexivity.
Qed.

End ClientProperties.

(** ** The land-use extraction *)

Section LandUseProperties.

Import ExtractionRun.

Ltac run_land_use :=
  lazy [extractLandUseAreas land_use_over fold_left land_use_iteration
        landUseClasses class fst snd String.append].

Ltac next_key :=
  repeat (rewrite lookup_insert_ne by congruence).

(** [extractLandUseAreas] stores, for each of the eight land-use keys, the
    hectares of the key's own class, and the buffer area in hectares; the
    eight class codes are pairwise different, so no class is read under two
    keys, and the nine stores go to nine different columns. *)
Theorem land_use_columns (area_of_class : Z -> Q) (buffered_area : Q)
    (bufferSuffix : string) :
  (forall landUseKey lu, In (landUseKey, lu) landUseClasses ->
     extractLandUseAreas area_of_class buffered_area bufferSuffix
       !! ((landUseKey +:+ "_ha") +:+ bufferSuffix) = Some (area_of_class (class lu))) /\
  extractLandUseAreas area_of_class buffered_area bufferSuffix
    !! ("buffer_total_ha" +:+ bufferSuffix) = Some (buffered_area / 10000) /\
  NoDup (map (fun entry => class (snd entry)) landUseClasses) /\
  size (extractLandUseAreas area_of_class buffered_area bufferSuffix) = 9%nat.
Proof.
  split; [|split; [|split]].
  - intros landUseKey lu Hin. simpl in Hin.
    repeat (destruct Hin as [Heq|Hin]; [inversion Heq; subst landUseKey lu; clear Heq|]);
      try contradiction;
      run_land_use; next_key; apply lookup_insert_eq.
  - run_land_use. apply lookup_insert_eq.
  - apply (bool_decide_unpack _). vm_compute. exact I.
  - run_land_use.
    repeat (rewrite map_size_insert_None by (next_key; apply lookup_empty)).
    rewrite map_size_empty. reflexivity.
Qed.

(** The extraction has the hectares column of every entry of the corrected
    registry except corn, with the value the corrected script stores; it has
    no corn column. *)
Theorem land_use_matches_corrected (area_of_class : Z -> Q) (buffered_area : Q)
    (bufferSuffix : string) :
  (forall cropKey c, In (cropKey, c) Corrected.crops -> cropKey <> "corn" ->
     exists ha,
       extractLandUseAreas area_of_class buffered_area bufferSuffix
         !! ((cropKey +:+ "_ha") +:+ bufferSuffix) = Some ha /\
       biomass_field area_of_class bufferSuffix (cropKey +:+ "_ha") = Some ha) /\
  extractLandUseAreas area_of_class buffered_area bufferSuffix
    !! ("corn_ha" +:+ bufferSuffix) = None.
Proof.
  split.
  - intros cropKey c Hin Hcorn. simpl in Hin.
    repeat (destruct Hin as [Heq|Hin]; [inversion Heq; subst cropKey c; clear Heq|]);
      try contradiction; try (exfalso; apply Hcorn; reflexivity);
      eexists; (split; [run_land_use; next_key; apply lookup_insert_eq|]);
      unfold biomass_field;
      lazy [Corrected.calculateBiomassInBuffer_CORRECTED Corrected.biomass_in_buffer
            Corrected.for_each_crop Corrected.crop_iteration Corrected.store_potentials
            Corrected.add_totals Corrected.crops Corrected.pasture Corrected.sugarcane
            Corrected.soy Corrected.corn Corrected.rice Corrected.coffee Corrected.citrus
            Corrected.class Corrected.livestock_density_heads_ha
            Corrected.annual_manure_ton_ha Corrected.productivity_ton_ha
            Corrected.biogas_factor_nm3_ton Corrected.methane_content
            Corrected.seasonal_factor Corrected.biomassResults Corrected.totalBiomassM3
            Corrected.totalMethaneM3 String.eqb Ascii.eqb Bool.eqb String.append];
      next_key; rewrite lookup_insert_eq; reflexivity.
  - run_land_use. next_key. apply lookup_empty.
Qed.

End LandUseProperties.

(** ** More on the recorded distances *)

Section MoreExtractionProperties.

Import Extraction.

Ltac run_extraction :=
  lazy [calculateInfrastructureDistances distances_over fold_left
        distance_iteration infrastructure fst String.append].

(** Whatever the queries do, the seven layers all get their column: the
    object has exactly seven keys. *)
Theorem distances_always_recorded (query : string -> layer_query) :
  size (calculateInfrastructureDistances query) = 7%nat /\
  forall infraKey l, In (infraKey, l) infrastructure ->
    is_Some (calculateInfrastructureDistances query
               !! (("dist_" +:+ infraKey) +:+ "_km")).
Proof.
  split.
  - run_extraction.
    repeat (rewrite map_size_insert_None by
              (repeat (rewrite lookup_insert_ne by congruence); apply lookup_empty)).
    rewrite map_size_empty. reflexivity.
  - intros infraKey l Hin.
    rewrite (recorded_distance_lookup query infraKey l Hin). eexists. reflexivity.
Qed.

(** When Earth Engine's distances are not negative, a negative recorded
    distance means exactly that the layer's computation threw, and it is then
    -1; a found layer is recorded in kilometres, a thousandth of the metres. *)
Theorem negative_distance_iff_failure (query : string -> layer_query)
    (infraKey : string) (l : layer)
    (Hin : In (infraKey, l) infrastructure)
    (Hpos : forall count distance,
       query infraKey = Answered count distance -> 0 <= distance) :
  exists v,
    calculateInfrastructureDistances query !! (("dist_" +:+ infraKey) +:+ "_km")
      = Some v /\
    (v < 0 <-> query infraKey = Threw) /\
    (query infraKey = Threw -> v = -1) /\
    (forall count distance,
       query infraKey = Answered count distance -> (0 < count)%N ->
       v = distance / 1000).
Proof.
  rewrite (recorded_distance_lookup query infraKey l Hin).
  eexists. split; [reflexivity|].
  destruct (query infraKey) as [|count distance] eqn:Hq.
  - split; [split; [reflexivity|intros _; reflexivity]|].
    split; [reflexivity|]. intros count distance Habs. discriminate Habs.
  - assert (Hd : 0 <= distance) by (apply (Hpos count distance); reflexivity).
    split.
    + split; [|discriminate]. intros Hneg. exfalso.
      unfold recorded_distance in Hneg.
      destruct (0 <? count)%N.
      * apply Qlt_not_le in Hneg. apply Hneg.
        apply Qle_shift_div_l; [reflexivity|]. lra.
      * apply Qlt_not_le in Hneg. apply Hneg. discriminate.
    + split; [discriminate|].
      intros count' distance' Heq Hcount. injection Heq as <- <-.
      unfold recorded_distance. apply N.ltb_lt in Hcount. rewrite Hcount. reflexivity.
Qed.

End MoreExtractionProperties.

(** ** The extraction run *)

Section ExtractionRunProperties.

Import ExtractionRun.

(** What [chunk.map] leaves on a polygon in one pass: the land-use columns of
    the pass, the seven distances in the 10 km pass only, and every other
    property of the polygon unchanged (in the other passes a distance column
    is whatever the polygon already had). *)
Theorem extract_polygon_properties
    (area : Master.feature -> Q -> Z -> Q) (buffer_area : Master.feature -> Q -> Q)
    (query : Master.feature -> string -> Extraction.layer_query)
    (distanceKey : string) (bufferDistance : Q) (polygon : Master.feature) :
  let out := extract_polygon area buffer_area query distanceKey bufferDistance polygon in
  let landUse :=
    extractLandUseAreas (area polygon bufferDistance)
      (buffer_area polygon bufferDistance) ("_" +:+ distanceKey) in
  (forall infraKey l, In (infraKey, l) Extraction.infrastructure ->
     distanceKey = "10km" ->
     out !! (("dist_" +:+ infraKey) +:+ "_km") =
       Some (Master.Number (Extraction.recorded_distance (query polygon infraKey)))) /\
  (forall key, distanceKey <> "10km" -> landUse !! key = None ->
     out !! key = polygon !! key) /\
  (forall key v, distanceKey <> "10km" -> landUse !! key = Some v ->
     out !! key = Some (Master.Number v)) /\
  (forall key, landUse !! key = None ->
     Extraction.calculateInfrastructureDistances (query polygon) !! key = None ->
     out !! key = polygon !! key).
Proof.
  intros out landUse. unfold out, extract_polygon. fold landUse.
  split; [|split; [|split]].
  - intros infraKey l Hin ->.
    rewrite set_numbers_lookup.
    change (Extraction.infraResults (query polygon) "10km")
      with (Extraction.calculateInfrastructureDistances (query polygon)).
    rewrite (recorded_distance_lookup (query polygon) infraKey l Hin). reflexivity.
  - intros key Hne Hnone.
    rewrite set_numbers_lookup, no_distances_outside_10km by exact Hne.
    rewrite set_numbers_lookup, Hnone. reflexivity.
  - intros key v Hne Hsome.
    rewrite set_numbers_lookup, no_distances_outside_10km by exact Hne.
    rewrite set_numbers_lookup, Hsome. reflexivity.
  - intros key Hnone Hdist.
    rewrite set_numbers_lookup.
    assert (Hinfra : Extraction.infraResults (query polygon) distanceKey !! key = None).
    { unfold Extraction.infraResults. destruct (String.eqb distanceKey "10km");
        [exact Hdist|apply lookup_empty]. }
    rewrite Hinfra, set_numbers_lookup, Hnone. reflexivity.
Qed.

Lemma scenario_collections (featureList : list Master.feature)
    (area : Master.feature -> Q -> Z -> Q) (buffer_area : Master.feature -> Q -> Q)
    (query : Master.feature -> string -> Extraction.layer_query)
    (scenario : string * Q) (n : nat) :
  concat (map Client.collection
            (map (chunk_export featureList area buffer_area query
                    (fst scenario) (snd scenario)) (seq 0 n))) =
    map (extract_polygon area buffer_area query (fst scenario) (snd scenario))
      (take (n * chunkSize) featureList).
Proof.
  rewrite map_map. unfold chunk_export. simpl Client.collection.
  rewrite <- slice_chunks, concat_map, map_map. reflexivity.
Qed.

(** Each pass exports ten chunks which together hold the extraction of the
    first 2500 polygons of the list, in order, each once; polygons beyond the
    first 2500 are in no export.  The thirty exports of the three passes have
    thirty different descriptions. *)
Theorem extraction_exports_cover (featureList : list Master.feature)
    (area : Master.feature -> Q -> Z -> Q) (buffer_area : Master.feature -> Q -> Q)
    (query : Master.feature -> string -> Extraction.layer_query) :
  (forall scenario, In scenario bufferDistances ->
     length (scenario_exports featureList area buffer_area query scenario) = 10%nat /\
     concat (map Client.collection
               (scenario_exports featureList area buffer_area query scenario)) =
       map (extract_polygon area buffer_area query (fst scenario) (snd scenario))
         (take 2500 featureList)) /\
  length (exports featureList area buffer_area query) = 30%nat /\
  NoDup (map Client.description (exports featureList area buffer_area query)) /\
  map Client.description
    (scenario_exports featureList area buffer_area query ("10km", 10000)) =
    [ "CP2B_RAW_DATA_10km_Chunk_00"; "CP2B_RAW_DATA_10km_Chunk_01";
      "CP2B_RAW_DATA_10km_Chunk_02"; "CP2B_RAW_DATA_10km_Chunk_03";
      "CP2B_RAW_DATA_10km_Chunk_04"; "CP2B_RAW_DATA_10km_Chunk_05";
      "CP2B_RAW_DATA_10km_Chunk_06"; "CP2B_RAW_DATA_10km_Chunk_07";
      "CP2B_RAW_DATA_10km_Chunk_08"; "CP2B_RAW_DATA_10km_Chunk_09" ].
Proof.
  split; [|split; [|split]].
  - intros scenario _. split.
    + unfold scenario_exports. rewrite length_map, length_seq. reflexivity.
    + unfold scenario_exports. apply (scenario_collections _ _ _ _ scenario 10).
  - reflexivity.
  - apply (bool_decide_unpack _). vm_compute. exact I.
  - reflexivity.
Qed.

End ExtractionRunProperties.

(** ** The corrected run *)

Section CorrectedRunProperties.

Import CorrectedRun.

Lemma score_polygon_returns (area : Master.feature -> Q -> Z -> Q)
    (bufferDistance : Q) (bufferSuffix : string) (polygon : Master.feature) :
  exists r,
    Corrected.calculateBiomassInBuffer_CORRECTED (area polygon bufferDistance)
      bufferSuffix = Some r /\
    score_polygon area bufferDistance bufferSuffix polygon =
      Some (Master.set polygon (Client.numbers r)).
Proof.
  destruct (calculateBiomassInBuffer_CORRECTED_returns (area polygon bufferDistance)
              bufferSuffix) as (r & Hr).
  exists r. split; [exact Hr|]. unfold score_polygon. rewrite Hr. reflexivity.
Qed.

Lemma chunk_export_returns (featureList : list Master.feature)
    (area : Master.feature -> Q -> Z -> Q) (distanceKey : string)
    (bufferDistance : Q) (i : nat) :
  exists e,
    chunk_export featureList area distanceKey bufferDistance i = Some e /\
    Client.description e =
      (("CP2B_" +:+ distanceKey) +:+ "_CORRECTED_Chunk_") +:+ Client.two_digits i /\
    Forall2 (fun polygon scored =>
               score_polygon area bufferDistance ("_" +:+ distanceKey) polygon
                 = Some scored)
      (Client.slice (i * chunkSize) (i * chunkSize + chunkSize) featureList)
      (Client.collection e).
Proof.
  unfold chunk_export.
  destruct (mapM (score_polygon area bufferDistance ("_" +:+ distanceKey))
              (Client.slice (i * chunkSize) (i * chunkSize + chunkSize) featureList))
    as [chunkResult|] eqn:Hmap.
  - eexists. split; [reflexivity|]. split; [reflexivity|].
    apply mapM_Some_1 in Hmap. exact Hmap.
  - exfalso. apply mapM_None_1 in Hmap. apply Exists_exists in Hmap.
    destruct Hmap as (polygon & _ & Hnone).
    destruct (score_polygon_returns area bufferDistance ("_" +:+ distanceKey) polygon)
      as (r & _ & Hsome).
    congruence.
Qed.

Lemma scenario_exports_scored (featureList : list Master.feature)
    (area : Master.feature -> Q -> Z -> Q) (scenario : string * Q) :
  exists queued,
    scenario_exports featureList area scenario = Some queued /\
    length queued = 5%nat /\
    map Client.description queued =
      map (fun i => (("CP2B_" +:+ fst scenario) +:+ "_CORRECTED_Chunk_")
                      +:+ Client.two_digits i) (seq 0 5) /\
    Forall2
      (fun polygon scored =>
         exists r,
           Corrected.calculateBiomassInBuffer_CORRECTED (area polygon (snd scenario))
             ("_" +:+ fst scenario) = Some r /\
           forall key,
             scored !! key =
               match r !! key with
               | Some v => Some (Master.Number v)
               | None => polygon !! key
               end)
      (take 2500 featureList)
      (concat (map Client.collection queued)).
Proof.
  unfold scenario_exports.
  destruct (mapM (chunk_export featureList area (fst scenario) (snd scenario)) (seq 0 5))
    as [queued|] eqn:Hmap.
  - exists queued. split; [reflexivity|].
    apply mapM_Some_1 in Hmap.
    assert (Heach :
      Forall2 (fun i e =>
                 Client.description e =
                   (("CP2B_" +:+ fst scenario) +:+ "_CORRECTED_Chunk_")
                     +:+ Client.two_digits i /\
                 Forall2 (fun polygon scored =>
                            score_polygon area (snd scenario) ("_" +:+ fst scenario)
                              polygon = Some scored)
                   (Client.slice (i * chunkSize) (i * chunkSize + chunkSize) featureList)
                   (Client.collection e))
        (seq 0 5) queued).
    { eapply Forall2_impl; [exact Hmap|]. intros i e He. simpl in He.
      destruct (chunk_export_returns featureList area (fst scenario) (snd scenario) i)
        as (e' & He' & Hd & Hc).
      rewrite He' in He. injection He as <-. split; assumption. }
    split; [rewrite <- (Forall2_length _ _ _ Hmap); reflexivity|].
    split.
    + clear Hmap. induction Heach as [|i e l k [Hd _] _ IH]; [reflexivity|].
      simpl. rewrite Hd, IH. reflexivity.
    + change 2500%nat with (5 * chunkSize)%nat.
      rewrite <- (slice_chunks featureList chunkSize 5).
      apply Forall2_concat. apply Forall2_fmap.
      eapply Forall2_impl; [exact Heach|].
      intros i e [_ Hc]. simpl.
      eapply Forall2_impl; [exact Hc|].
      intros polygon scored Hscored. simpl in Hscored.
      destruct (score_polygon_returns area (snd scenario) ("_" +:+ fst scenario) polygon)
        as (r & Hr & Hsome).
      rewrite Hsome in Hscored. injection Hscored as <-.
      exists r. split; [exact Hr|]. intros key. apply set_numbers_lookup.
  - exfalso. apply mapM_None_1 in Hmap. apply Exists_exists in Hmap.
    destruct Hmap as (i & _ & Hnone).
    destruct (chunk_export_returns featureList area (fst scenario) (snd scenario) i)
      as (e & He & _).
    congruence.
Qed.

(** Each scenario queues five exports whose collections, put end to end, are
    the scored first 2500 polygons of the list, in order and each once: a
    polygon beyond the first 2500 is in no export.  Every scored polygon
    carries the columns computed for its own buffer and keeps each property
    that is not one of them.  The fifteen exports of the three scenarios have
    fifteen different descriptions. *)
Theorem corrected_exports_cover (featureList : list Master.feature)
    (area : Master.feature -> Q -> Z -> Q) :
  (forall scenario : string * Q,
     exists queued,
       scenario_exports featureList area scenario = Some queued /\
       length queued = 5%nat /\
       Forall2
         (fun polygon scored =>
            exists r,
              Corrected.calculateBiomassInBuffer_CORRECTED
                (area polygon (snd scenario)) ("_" +:+ fst scenario) = Some r /\
              forall key,
                scored !! key =
                  match r !! key with
                  | Some v => Some (Master.Number v)
                  | None => polygon !! key
                  end)
         (take 2500 featureList)
         (concat (map Client.collection queued))) /\
  exists queued,
    exports featureList area = Some queued /\
    length queued = 15%nat /\
    NoDup (map Client.description queued).
Proof.
  split.
  - intros scenario.
    destruct (scenario_exports_scored featureList area scenario)
      as (queued & Hq & Hlen & _ & Hall).
    exists queued. repeat split; assumption.
  - destruct (scenario_exports_scored featureList area ("10km", 10000))
      as (q1 & Hq1 & Hlen1 & Hd1 & _).
    destruct (scenario_exports_scored featureList area ("30km", 30000))
      as (q2 & Hq2 & Hlen2 & Hd2 & _).
    destruct (scenario_exports_scored featureList area ("50km", 50000))
      as (q3 & Hq3 & Hlen3 & Hd3 & _).
    assert (Hm : mapM (scenario_exports featureList area) bufferDistances =
                 Some [q1; q2; q3]).
    { apply mapM_Some_2. unfold bufferDistances. repeat constructor; assumption. }
    unfold exports. rewrite Hm. eexists. split; [reflexivity|].
    simpl concat. rewrite app_nil_r. split.
    + rewrite !length_app, Hlen1, Hlen2, Hlen3. reflexivity.
    + rewrite !map_app, Hd1, Hd2, Hd3.
      apply (bool_decide_unpack _). vm_compute. exact I.
Qed.

End CorrectedRunProperties.

(** ** More on the master script *)

Section MasterRunProperties.

Import MasterRun.

Lemma get_or_truthy (polygon : Master.feature) (key : string) (fallback : Master.value) :
  Client.truthy (Some fallback) = true ->
  Client.truthy (Some (Client.get_or polygon key fallback)) = true.
Proof.
  intros Hfallback. unfold Client.get_or.
  destruct (polygon !! key) as [v|]; [|exact Hfallback].
  destruct (Client.truthy (Some v)) eqn:Hv; [exact Hv|exact Hfallback].
Qed.

Lemma master_distance_lookup (query : Master.feature -> string -> Extraction.layer_query)
    (polygon : Master.feature) (infraKey : string) (l : Master.layer) :
  In (infraKey, l) Master.infrastructure ->
  infraDistances query polygon !! (("dist_" +:+ infraKey) +:+ "_km") =
    Some (Extraction.recorded_distance (query polygon infraKey)).
Proof.
  intros Hin. simpl in Hin.
  repeat (destruct Hin as [Heq|Hin]; [inversion Heq; subst infraKey l; clear Heq|]);
    try contradiction;
    lazy [infraDistances fold_left distance_iteration Master.infrastructure fst
          String.append];
    repeat (rewrite lookup_insert_ne by congruence);
    apply lookup_insert_eq.
Qed.

Lemma master_distance_absent (query : Master.feature -> string -> Extraction.layer_query)
    (polygon : Master.feature) (key : string) :
  (forall infraKey l, In (infraKey, l) Master.infrastructure ->
     key <> ("dist_" +:+ infraKey) +:+ "_km") ->
  infraDistances query polygon !! key = None.
Proof.
  intros Hne.
  lazy [infraDistances fold_left distance_iteration Master.infrastructure fst].
  repeat (rewrite lookup_insert_ne;
          [|intros Heq; symmetry in Heq; revert Heq; eapply Hne;
            unfold Master.infrastructure;
            repeat (first [left; reflexivity|right])]).
  apply lookup_empty.
Qed.

(** [calculateInfrastructureDistances] of the master script builds a new
    feature per polygon: it carries [cod_imovel] and [municipio], which are
    never missing nor empty (they read UNKNOWN when the polygon has none),
    [area_ha] taken from the polygon's AREA_HA (0 when it has none), and the
    eight distances; every other property of the polygon is dropped. *)
Theorem safe_feature_properties
    (query : Master.feature -> string -> Extraction.layer_query)
    (polygon : Master.feature) :
  exists out,
    calculateInfrastructureDistances query [polygon] = [out] /\
    out !! "cod_imovel" =
      Some (Client.get_or polygon "cod_imovel" (Master.Text "UNKNOWN")) /\
    Client.truthy (out !! "cod_imovel") = true /\
    Client.truthy (out !! "municipio") = true /\
    (polygon !! "cod_imovel" = None -> out !! "cod_imovel" = Some (Master.Text "UNKNOWN")) /\
    (polygon !! "cod_imovel" = Some (Master.Text "") ->
       out !! "cod_imovel" = Some (Master.Text "UNKNOWN")) /\
    out !! "area_ha" = Some (Client.get_or polygon "AREA_HA" (Master.Number 0)) /\
    (polygon !! "AREA_HA" = None -> out !! "area_ha" = Some (Master.Number 0)) /\
    (forall infraKey l, In (infraKey, l) Master.infrastructure ->
       out !! (("dist_" +:+ infraKey) +:+ "_km") =
         Some (Master.Number (Extraction.recorded_distance (query polygon infraKey)))) /\
    (forall key,
       key <> "cod_imovel" -> key <> "municipio" -> key <> "area_ha" ->
       (forall infraKey l, In (infraKey, l) Master.infrastructure ->
          key <> ("dist_" +:+ infraKey) +:+ "_km") ->
       out !! key = None).
Proof.
  eexists. split; [reflexivity|].
  assert (Hcod : Master.set (safeProperties polygon)
                   (Client.numbers (infraDistances query polygon)) !! "cod_imovel" =
                 Some (Client.get_or polygon "cod_imovel" (Master.Text "UNKNOWN"))).
  { rewrite set_numbers_lookup, master_distance_absent.
    - unfold safeProperties. apply lookup_insert_eq.
    - intros infraKey l Hin. simpl in Hin.
      repeat (destruct Hin as [Heq|Hin]; [inversion Heq; subst; discriminate|]).
      contradiction. }
  assert (Hmun : Master.set (safeProperties polygon)
                   (Client.numbers (infraDistances query polygon)) !! "municipio" =
                 Some (Client.get_or polygon "municipio" (Master.Text "UNKNOWN"))).
  { rewrite set_numbers_lookup, master_distance_absent.
    - unfold safeProperties. rewrite lookup_insert_ne by congruence.
      apply lookup_insert_eq.
    - intros infraKey l Hin. simpl in Hin.
      repeat (destruct Hin as [Heq|Hin]; [inversion Heq; subst; discriminate|]).
      contradiction. }
  assert (Harea : Master.set (safeProperties polygon)
                    (Client.numbers (infraDistances query polygon)) !! "area_ha" =
                  Some (Client.get_or polygon "AREA_HA" (Master.Number 0))).
  { rewrite set_numbers_lookup, master_distance_absent.
    - unfold safeProperties. do 2 rewrite lookup_insert_ne by congruence.
      apply lookup_insert_eq.
    - intros infraKey l Hin. simpl in Hin.
      repeat (destruct Hin as [Heq|Hin]; [inversion Heq; subst; discriminate|]).
      contradiction. }
  split; [exact Hcod|].
  split; [rewrite Hcod; apply get_or_truthy; reflexivity|].
  split; [rewrite Hmun; apply get_or_truthy; reflexivity|].
  split; [intros Hnone; rewrite Hcod; unfold Client.get_or; rewrite Hnone; reflexivity|].
  split; [intros Hempty; rewrite Hcod; unfold Client.get_or; rewrite Hempty; reflexivity|].
  split; [exact Harea|].
  split; [intros Hnone; rewrite Harea; unfold Client.get_or; rewrite Hnone; reflexivity|].
  split.
  - intros infraKey l Hin.
    rewrite set_numbers_lookup, (master_distance_lookup query polygon infraKey l Hin).
    reflexivity.
  - intros key H1 H2 H3 Hdist.
    rewrite set_numbers_lookup, master_distance_absent by exact Hdist.
    unfold safeProperties. do 3 rewrite lookup_insert_ne by congruence.
    apply lookup_empty.
Qed.

Lemma master_collections (query : Master.feature -> string -> Extraction.layer_query)
    (featureList : list Master.feature) (n : nat) :
  concat (map Client.collection (map (chunk_export query featureList) (seq 0 n))) =
    calculateInfrastructureDistances query (take (n * chunkSize) featureList).
Proof.
  rewrite map_map. unfold chunk_export, calculateInfrastructureDistances.
  simpl Client.collection.
  rewrite <- slice_chunks, concat_map, map_map. reflexivity.
Qed.

(** The master script queues 25 exports with 25 different descriptions; put
    end to end their collections are the distance features of the first 12500
    polygons of the list, in order and each once, and of no other polygon. *)
Theorem master_exports_cover
    (query : Master.feature -> string -> Extraction.layer_query)
    (featureList : list Master.feature) :
  length (exports query featureList) = 25%nat /\
  NoDup (map Client.description (exports query featureList)) /\
  concat (map Client.collection (exports query featureList)) =
    calculateInfrastructureDistances query (take (25 * 500) featureList) /\
  length (concat (map Client.collection (exports query featureList))) =
    Nat.min (25 * 500) (length featureList).
Proof.
  assert (Hcover :
    concat (map Client.collection (exports query featureList)) =
      calculateInfrastructureDistances query (take (25 * 500) featureList)).
  { unfold exports. apply (master_collections query featureList 25). }
  split; [reflexivity|].
  split; [apply (bool_decide_unpack _); vm_compute; exact I|].
  split; [exact Hcover|].
  rewrite Hcover. unfold calculateInfrastructureDistances.
  rewrite length_map. apply length_take.
Qed.

End MasterRunProperties.

Section MoreMasterProperties.

Import Master.

Lemma set_other_key (f properties : feature) (key : string) :
  properties !! key = None -> set f properties !! key = f !! key.
Proof.
  intros Hnone. unfold set. rewrite lookup_union, Hnone.
  destruct (f !! key); reflexivity.
Qed.

(** The two placeholder steps only touch their own keys: after both, in
    either order, the five score keys read 0 and every other property of
    the feature is as before; running a step twice changes nothing more. *)
Theorem placeholder_steps_compose (f : feature) :
  (forall scored, calculateRestrictionScores [f] = [scored] ->
     calculateRestrictionScores [calculateMCDAScores f] =
       [calculateMCDAScores scored]) /\
  calculateMCDAScores (calculateMCDAScores f) = calculateMCDAScores f /\
  calculateRestrictionScores (calculateRestrictionScores [f]) =
    calculateRestrictionScores [f] /\
  (forall key,
     key <> "biomass_score" -> key <> "infrastructure_score" ->
     key <> "restriction_score" -> key <> "mcda_final_score" ->
     calculateMCDAScores f !! key = f !! key) /\
  (forall key scored, calculateRestrictionScores [f] = [scored] ->
     key <> "total_restriction_score" -> scored !! key = f !! key).
Proof.
  split; [|split; [|split; [|split]]].
  - intros scored Hscored. injection Hscored as <-.
    unfold calculateRestrictionScores, calculateMCDAScores, set. simpl. f_equal.
    apply map_eq. intros key.
    rewrite !lookup_union.
    destruct (decide (key = "total_restriction_score")) as [->|Hk].
    + rewrite lookup_insert_eq.
      repeat (rewrite lookup_insert_ne by congruence). rewrite lookup_empty.
      simpl. destruct (f !! "total_restriction_score"); reflexivity.
    + rewrite (lookup_insert_ne _ "total_restriction_score") by congruence.
      rewrite lookup_empty.
      destruct ((<["biomass_score":=Number 0]>
                   (<["infrastructure_score":=Number 0]>
                      (<["restriction_score":=Number 0]>
                         (<["mcda_final_score":=Number (final_mcda_score 0 0 0)]> ∅))))
                  !! key); destruct (f !! key); reflexivity.
  - unfold calculateMCDAScores, set. rewrite (assoc_L (∪)), (idemp_L (∪)). reflexivity.
  - unfold calculateRestrictionScores, set. simpl.
    rewrite (assoc_L (∪)), (idemp_L (∪)). reflexivity.
  - intros key H1 H2 H3 H4. unfold calculateMCDAScores. apply set_other_key.
    repeat (rewrite lookup_insert_ne by congruence). apply lookup_empty.
  - intros key scored Hscored Hk. injection Hscored as <-.
    apply set_other_key. rewrite lookup_insert_ne by congruence. apply lookup_empty.
Qed.

End MoreMasterProperties.

(** ** More on the distance score *)

Section MoreDistanceProperties.

Import Methodology.

Lemma distance_score_range (distance_km max_distance : Q) :
  0 <= calculate_distance_score distance_km max_distance <= 100.
Proof.
  unfold calculate_distance_score.
  destruct (Qle_bool distance_km 1) eqn:Hnear; [split; discriminate|].
  destruct (Qle_bool max_distance distance_km) eqn:Hfar; [split; discriminate|].
  assert (Hd : 1 < distance_km).
  { apply Qnot_le_lt. intros Hle. apply Qle_bool_iff in Hle. congruence. }
  assert (Hm : distance_km < max_distance).
  { apply Qnot_le_lt. intros Hle. apply Qle_bool_iff in Hle. congruence. }
  assert (Hratio : 0 <= distance_km / max_distance).
  { apply Qle_shift_div_l; lra. }
  split; [apply Q.le_max_l|].
  apply Q.max_lub; lra.
Qed.

(** The distance score always lies between 0 and 100, for any distance and
    any [max_distance], and never grows with the distance. *)
Theorem distance_score_range_monotone (d1 d2 max_distance : Q) :
  0 <= calculate_distance_score d1 max_distance <= 100 /\
  (d1 <= d2 ->
     calculate_distance_score d2 max_distance <=
       calculate_distance_score d1 max_distance).
Proof.
  split; [apply distance_score_range|].
  intros Hle.
  pose proof (distance_score_range d1 max_distance) as [Hlow1 _].
  pose proof (distance_score_range d2 max_distance) as [_ Hhigh2].
  unfold calculate_distance_score in *.
  destruct (Qle_bool d1 1) eqn:Hnear1; [exact Hhigh2|].
  assert (Hd1 : 1 < d1).
  { apply Qnot_le_lt. intros H. apply Qle_bool_iff in H. congruence. }
  destruct (Qle_bool d2 1) eqn:Hnear2.
  { apply Qle_bool_iff in Hnear2. lra. }
  destruct (Qle_bool max_distance d2) eqn:Hfar2; [exact Hlow1|].
  assert (Hd2 : d2 < max_distance).
  { apply Qnot_le_lt. intros H. apply Qle_bool_iff in H. congruence. }
  destruct (Qle_bool max_distance d1) eqn:Hfar1.
  { apply Qle_bool_iff in Hfar1. lra. }
  apply Q.max_le_compat_l.
  assert (Hratio : d1 / max_distance <= d2 / max_distance).
  { unfold Qdiv. apply Qmult_le_compat_r; [exact Hle|].
    apply Qlt_le_weak, Qinv_lt_0_compat. lra. }
  lra.
Qed.

Lemma distance_score_range_monotone_witness :
  calculate_distance_score 30 default_max_distance <=
    calculate_distance_score 20 default_max_distance.
Proof.
  destruct (distance_score_range_monotone 20 30 default_max_distance) as (_ & Hmono).
  apply Hmono. discriminate.
Defined.

(** The score drops at the cutoff: a distance at or below 1 km scores 100,
    and with [max_distance] above 1 km a distance above 1 km scores at most
    what the interpolation gives at 1 km, 100 - (1 / max_distance) * 100;
    with the default of 50 km a distance above 1 km scores at most 98. *)
Theorem distance_score_gap (distance_km max_distance : Q) :
  (distance_km <= 1 -> calculate_distance_score distance_km max_distance = 100) /\
  (1 < distance_km -> 1 < max_distance ->
     calculate_distance_score distance_km max_distance <=
       100 - (1 / max_distance) * 100) /\
  (1 < distance_km ->
     calculate_distance_score distance_km default_max_distance <= 98).
Proof.
  assert (Hbound : forall m, 1 < distance_km -> 1 < m ->
            calculate_distance_score distance_km m <= 100 - (1 / m) * 100).
  { intros m Hd Hm.
    assert (Hinv : 0 < / m) by (apply Qinv_lt_0_compat; lra).
    assert (Hone : 1 / m < 1) by (apply Qlt_shift_div_r; lra).
    destruct (Qlt_le_dec distance_km m) as [Hlt|Hge].
    - rewrite distance_score_between by assumption.
      assert (Hratio : 1 / m <= distance_km / m).
      { unfold Qdiv. apply Qmult_le_compat_r; lra. }
      lra.
    - rewrite distance_score_far by assumption. lra. }
  split; [apply distance_score_near|].
  split; [apply Hbound|].
  intros Hd.
  apply Qle_trans with (100 - (1 / default_max_distance) * 100).
  - apply Hbound; [exact Hd|reflexivity].
  - discriminate.
Qed.

Lemma distance_score_gap_witness :
  calculate_distance_score 1 default_max_distance = 100 /\
  calculate_distance_score 1.01 default_max_distance <= 98.
Proof.
  destruct (distance_score_gap 1 default_max_distance) as (Hnear & _).
  destruct (distance_score_gap 1.01 default_max_distance) as (_ & _ & Hgap).
  split; [apply Hnear; discriminate|apply Hgap; reflexivity].
Defined.

(** A layer with no feature inside the search radius, recorded at 999.999
    km, gets the distance score 0 with the default [max_distance]. *)
Lemma nothing_nearby_scores_0_witness :
  exists d,
    Extraction.calculateInfrastructureDistances
      (fun _ => Extraction.Answered 0 0) !! "dist_gasodutos_km" = Some d /\
    d == 999.999 /\
    calculate_distance_score d default_max_distance = 0.
Proof.
  apply (nothing_nearby_scores_0 (fun _ => Extraction.Answered 0 0) "gasodutos"
           {| Extraction.collection :=
                "projects/prova-de-conceito-cp2b/assets/gasoduto-transporte";
              Extraction.name := "Gasodutos de Transporte" |} 0).
  - simpl. do 4 right. left. reflexivity.
  - reflexivity.
  - discriminate.
Defined.

End MoreDistanceProperties.

(** ** Instances *)

Section Instances.

Lemma land_use_columns_witness :
  ExtractionRun.extractLandUseAreas cane_only 314159265 "_10km"
    !! "sugarcane_ha_10km" = Some (cane_only 20).
Proof.
  destruct (land_use_columns cane_only 314159265 "_10km") as (Hall & _).
  apply (Hall "sugarcane"
           {| ExtractionRun.class := 20; ExtractionRun.name := "Cana-de-açúcar" |}).
  simpl. right. left. reflexivity.
Defined.

Lemma land_use_matches_corrected_witness :
  exists ha,
    ExtractionRun.extractLandUseAreas cane_only 314159265 "_10km"
      !! "sugarcane_ha_10km" = Some ha /\
    biomass_field cane_only "_10km" "sugarcane_ha" = Some ha.
Proof.
  destruct (land_use_matches_corrected cane_only 314159265 "_10km") as (Hall & _).
  apply (Hall "sugarcane" Corrected.sugarcane).
  - simpl. right. left. reflexivity.
  - discriminate.
Defined.

Lemma distances_always_recorded_witness :
  is_Some (Extraction.calculateInfrastructureDistances substations_fail
             !! "dist_subestacoes_km").
Proof.
  destruct (distances_always_recorded substations_fail) as (_ & Hall).
  apply (Hall "subestacoes"
           {| Extraction.collection :=
                "projects/prova-de-conceito-cp2b/assets/SE_EXISTENTE";
              Extraction.name := "Subestações Elétricas" |}).
  simpl. left. reflexivity.
Defined.

Lemma negative_distance_iff_failure_witness :
  exists v,
    Extraction.calculateInfrastructureDistances substations_fail
      !! "dist_rodovias_federais_km" = Some v /\
    v = 2500 / 1000 /\
    ~ v < 0.
Proof.
  destruct (negative_distance_iff_failure substations_fail "rodovias_federais"
              {| Extraction.collection :=
                   "projects/prova-de-conceito-cp2b/assets/rodovia-federal";
                 Extraction.name := "Rodovias Federais" |})
    as (v & Hv & Hneg & _ & Hfound).
  - simpl. do 2 right. left. reflexivity.
  - intros count distance Heq. injection Heq as _ <-. discriminate.
  - exists v. split; [exact Hv|]. split.
    + apply (Hfound 1%N 2500); reflexivity.
    + intros Hlt. apply Hneg in Hlt. discriminate Hlt.
Defined.

Lemma extract_polygon_properties_witness :
  ExtractionRun.extract_polygon (fun _ _ => cane_only) (fun _ d => d * d)
    (fun _ => substations_fail) "10km" 10000 ∅ !! "dist_subestacoes_km" =
    Some (Master.Number (-1)) /\
  ExtractionRun.extract_polygon (fun _ _ => cane_only) (fun _ d => d * d)
    (fun _ => substations_fail) "30km" 30000 ∅ !! "dist_subestacoes_km" = None.
Proof.
  destruct (extract_polygon_properties (fun _ _ => cane_only) (fun _ d => d * d)
              (fun _ => substations_fail) "10km" 10000 ∅) as (Hten & _).
  destruct (extract_polygon_properties (fun _ _ => cane_only) (fun _ d => d * d)
              (fun _ => substations_fail) "30km" 30000 ∅) as (_ & Hother & _).
  split.
  - apply (Hten "subestacoes"
             {| Extraction.collection :=
                  "projects/prova-de-conceito-cp2b/assets/SE_EXISTENTE";
                Extraction.name := "Subestações Elétricas" |}).
    + simpl. left. reflexivity.
    + reflexivity.
  - rewrite Hother; [reflexivity|discriminate|vm_compute; reflexivity].
Defined.

Lemma extraction_exports_cover_witness :
  concat (map Client.collection
            (ExtractionRun.scenario_exports [∅] (fun _ _ => cane_only)
               (fun _ d => d * d) (fun _ => substations_fail) ("30km", 30000))) =
    [ ExtractionRun.extract_polygon (fun _ _ => cane_only) (fun _ d => d * d)
        (fun _ => substations_fail) "30km" 30000 ∅ ].
Proof.
  destruct (extraction_exports_cover [∅] (fun _ _ => cane_only) (fun _ d => d * d)
              (fun _ => substations_fail)) as (Hall & _).
  destruct (Hall ("30km", 30000)) as (_ & Hcover).
  - simpl. right. left. reflexivity.
  - exact Hcover.
Defined.

Lemma safe_feature_properties_witness :
  exists out,
    MasterRun.calculateInfrastructureDistances (fun _ => substations_fail)
      [ {[ "owner" := Master.Text "x" ]} ] = [out] /\
    out !! "cod_imovel" = Some (Master.Text "UNKNOWN") /\
    out !! "area_ha" = Some (Master.Number 0) /\
    out !! "owner" = None.
Proof.
  destruct (safe_feature_properties (fun _ => substations_fail)
              {[ "owner" := Master.Text "x" ]})
    as (out & Hout & _ & _ & _ & Hcod & _ & _ & Harea & _ & Hdropped).
  exists out. split; [exact Hout|].
  split; [apply Hcod; reflexivity|].
  split; [apply Harea; reflexivity|].
  apply Hdropped; discriminate.
Defined.

Lemma placeholder_steps_compose_witness :
  Master.calculateMCDAScores {[ "biomass_score_30km" := Master.Number 272.316825 ]}
    !! "biomass_score_30km" = Some (Master.Number 272.316825).
Proof.
  destruct (placeholder_steps_compose
              {[ "biomass_score_30km" := Master.Number 272.316825 ]})
    as (_ & _ & _ & Hkept & _).
  rewrite Hkept by discriminate. reflexivity.
Defined.

End Instances.
